(** * geni-tools: the ABAC binders of [gcf/geni/auth/binders.py]

    A shallow embedding of the URN conversion helpers and of the binder
    classes ([Standard_Binder], [SFA_Binder], [Stitching_Binder]) together
    with the fragment of the Python 2 runtime and of [xml.dom.minidom] that
    they rely on.  Dictionaries are finite maps, exceptions are values of
    an error monad, and the collaborators defined outside the module (the
    XML parser, the GID decoder, the credential verifier, the privilege
    table, the method-name constants and the clock) are section variables. *)

From Stdlib Require Import Ascii.
From stdpp Require Import gmap strings list fin_maps pretty.

Set Warnings "-register-all".
Local Open Scope string_scope.
Local Open Scope list_scope.

(** ** The fragment of the Python runtime used by the binders *)

Module Py.

(** Exceptions.  [IndexError] and [KeyError] are the ones raised by the
    subscript expressions of the module itself; [Exception cls] stands for
    any other instance of a class deriving from [Exception] (raised by a
    collaborator), and [BaseException cls] for what does not derive from
    it ([KeyboardInterrupt], [SystemExit], ...). *)
Inductive exn : Type :=
| IndexError
| KeyError (key : string)
| Exception (cls : string)
| BaseException (cls : string).

Definition exn_class (e : exn) : string :=
  match e with
  | IndexError => "IndexError"
  | KeyError _ => "KeyError"
  | Exception cls => cls
  | BaseException cls => cls
  end.

(** [isinstance(e, Exception)]: what an [except Exception] clause catches. *)
Definition isinstance_Exception (e : exn) : bool :=
  match e with
  | BaseException _ => false
  | _ => true
  end.

Inductive result (A : Type) : Type :=
| Ok (a : A)
| Raise (e : exn).
Arguments Ok {A} a.
Arguments Raise {A} e.

#[export] Instance result_ret : MRet result := fun A a => Ok a.
#[export] Instance result_bind : MBind result := fun A B f m =>
  match m with
  | Ok a => f a
  | Raise e => Raise e
  end.

Definition raises {A} (m : result A) : Prop := ∃ e, m = Raise e.

(** [try: body  except Exception, e: handler]. *)
Definition try_except_Exception {A} (body : result A) (handler : exn → result A)
  : result A :=
  match body with
  | Ok a => Ok a
  | Raise e => if isinstance_Exception e then handler e else Raise e
  end.

(** [l[i]] on a list and [d[k]] on a dictionary. *)
Definition list_getitem {A} (l : list A) (i : nat) : result A :=
  match l !! i with
  | Some x => Ok x
  | None => Raise IndexError
  end.

Definition dict_getitem {V} (d : gmap string V) (k : string) : result V :=
  match d !! k with
  | Some v => Ok v
  | None => Raise (KeyError k)
  end.

(** [c in s] for a one-character [c]. *)
Fixpoint occurs (c : Ascii.ascii) (s : string) : bool :=
  match s with
  | EmptyString => false
  | String c' s' => if decide (c' = c) then true else occurs c s'
  end.

(** [s.split(sep)] for a one-character separator: one more piece than
    there are separators, empty pieces kept, [''.split(sep) == ['']]. *)
Fixpoint split (sep : Ascii.ascii) (s : string) : list string :=
  match s with
  | EmptyString => [EmptyString]
  | String c s' =>
      if decide (c = sep) then EmptyString :: split sep s'
      else match split sep s' with
           | [] => [String c EmptyString]
           | piece :: pieces => String c piece :: pieces
           end
  end.

(** Python 2 has two string types.  Values read from a parsed XML document
    are [unicode] objects; literals of the module are [str] objects.
    Characters are modelled by [ascii], that is code points below 256. *)
Inductive pystring : Type :=
| Str (s : string)
| Unicode (s : string).

Definition is_ascii (s : string) : bool :=
  forallb (λ c, bool_decide (N_of_ascii c < 128)%N) (String.list_ascii_of_string s).

(** [a == b]: objects of one type compare by content; a [str] compared
    with a [unicode] is first decoded as ASCII, and when that fails the
    two are unequal. *)
Definition py_eq (a b : pystring) : bool :=
  match a, b with
  | Str x, Str y => bool_decide (x = y)
  | Unicode x, Unicode y => bool_decide (x = y)
  | Str x, Unicode y => is_ascii x && bool_decide (x = y)
  | Unicode x, Str y => is_ascii y && bool_decide (x = y)
  end.

(** [x in l] on a list. *)
Definition list_contains (x : pystring) (l : list pystring) : bool :=
  existsb (λ y, py_eq y x) l.

Definition squote : Ascii.ascii := "'"%char.
Definition dquote : Ascii.ascii := ascii_of_nat 34.
Definition backslash : Ascii.ascii := "\"%char.

Definition hexdigit (n : N) : Ascii.ascii :=
  nth (N.to_nat n) (String.list_ascii_of_string "0123456789abcdef") "0"%char.

(** One character of [repr]: the quote in use and the backslash are
    escaped, then tab, newline and carriage return, then everything that
    is not printable ASCII as [\xhh]. *)
Definition repr_char (quote c : Ascii.ascii) : string :=
  let n := N_of_ascii c in
  if bool_decide (c = quote) || bool_decide (c = backslash)
  then String backslash (String c EmptyString)
  else if (n =? 9)%N then "\t"
  else if (n =? 10)%N then "\n"
  else if (n =? 13)%N then "\r"
  else if (n <? 32)%N || (127 <=? n)%N
  then String backslash
         (String "x" (String (hexdigit (n / 16)) (String (hexdigit (n mod 16)) EmptyString)))
  else String c EmptyString.

Fixpoint repr_chars (quote : Ascii.ascii) (s : string) : string :=
  match s with
  | EmptyString => EmptyString
  | String c s' => repr_char quote c +:+ repr_chars quote s'
  end.

Definition repr_quote (s : string) : Ascii.ascii :=
  if occurs squote s && negb (occurs dquote s) then dquote else squote.

Definition repr_quoted (s : string) : string :=
  let quote := repr_quote s in
  String quote (repr_chars quote s +:+ String quote EmptyString).

(** [repr(x)] of a string object. *)
Definition repr (x : pystring) : string :=
  match x with
  | Str s => repr_quoted s
  | Unicode s => String "u" (repr_quoted s)
  end.

Fixpoint join (sep : string) (l : list string) : string :=
  match l with
  | [] => EmptyString
  | [x] => x
  | x :: l' => x +:+ sep +:+ join sep l'
  end.

(** [str(l)] of a list of strings. *)
Definition str_list (l : list pystring) : string :=
  "[" +:+ join ", " (map repr l) +:+ "]".

(** [str(n)] of an integer. *)
Definition str_int (n : Z) : string := pretty n.

End Py.

Import Py.

(** ** URN helpers of [binders.py] *)

Module Urn.

Definition _convert_urn (value obj_type obj_name : string) : string :=
  "urn:publicid:IDN+" +:+ value +:+ "+" +:+ obj_type +:+ "+" +:+ obj_name.

Definition convert_slice_urn_to_project_urn (slice_urn : string)
  : result string :=
  project_auth_token ← list_getitem (split "+"%char slice_urn) 1;
  let project_auth_parts := split ":"%char project_auth_token in
  project_auth ← list_getitem project_auth_parts 0;
  project_name ← list_getitem project_auth_parts 1;
  let project_urn := _convert_urn project_auth "project" project_name in
  mret project_urn.

Definition convert_user_urn_to_authority_urn (user_urn : string)
  : result string :=
  user_auth_token ← list_getitem (split "+"%char user_urn) 1;
  let user_authority := _convert_urn user_auth_token "authority" "ca" in
  mret user_authority.

End Urn.

(** ** The fragment of [xml.dom.minidom] used by [Stitching_Binder] *)

Module minidom.

Inductive Node : Type :=
| Element (tagName : string) (_attrs : gmap string string) (childNodes : list Node)
| Text (data : string)
| Comment (data : string)
| CDATASection (data : string)
| ProcessingInstruction (target data : string)
| DocumentType (name : string).

Record Document : Type := mkDocument { document_childNodes : list Node }.

Inductive NodeType : Type :=
| ELEMENT_NODE | TEXT_NODE | COMMENT_NODE | CDATA_SECTION_NODE
| PROCESSING_INSTRUCTION_NODE | DOCUMENT_TYPE_NODE.

#[export] Instance NodeType_eq_dec : EqDecision NodeType.
Proof. solve_decision. Defined.

Definition nodeType (n : Node) : NodeType :=
  match n with
  | Element _ _ _ => ELEMENT_NODE
  | Text _ => TEXT_NODE
  | Comment _ => COMMENT_NODE
  | CDATASection _ => CDATA_SECTION_NODE
  | ProcessingInstruction _ _ => PROCESSING_INSTRUCTION_NODE
  | DocumentType _ => DOCUMENT_TYPE_NODE
  end.

(** [tagName] and [childNodes] are read on elements only. *)
Definition tagName (n : Node) : string :=
  match n with
  | Element t _ _ => t
  | _ => EmptyString
  end.

Definition childNodes (n : Node) : list Node :=
  match n with
  | Element _ _ cs => cs
  | _ => []
  end.

(** [Element.getAttribute]: the attribute's value, a [unicode] object, or
    the [str] object [""] when the element has no such attribute. *)
Definition getAttribute (n : Node) (attname : string) : pystring :=
  match n with
  | Element _ attrs _ =>
      match attrs !! attname with
      | Some value => Unicode value
      | None => Str EmptyString
      end
  | _ => Str EmptyString
  end.

Definition tag_matches (name : string) (node : Node) : bool :=
  bool_decide (nodeType node = ELEMENT_NODE)
  && (bool_decide (name = "*") || bool_decide (tagName node = name)).

(** [_get_elements_by_tagName_helper(parent, name, rc)]: the nodes appended
    to [rc], in document order; [parent] itself is not a candidate. *)
Fixpoint _get_elements_by_tagName_helper (name : string) (parent : Node)
  : list Node :=
  match parent with
  | Element _ _ cs =>
      flat_map (λ node,
        (if tag_matches name node then [node] else [])
        ++ _get_elements_by_tagName_helper name node) cs
  | _ => []
  end.

Definition getElementsByTagName (elt : Node) (name : string) : list Node :=
  _get_elements_by_tagName_helper name elt.

Definition Document_getElementsByTagName (doc : Document) (name : string)
  : list Node :=
  flat_map (λ node,
    (if tag_matches name node then [node] else [])
    ++ _get_elements_by_tagName_helper name node) (document_childNodes doc).

(** [Document.documentElement]: the first child that is an element. *)
Definition documentElement (doc : Document) : option Node :=
  find (λ node, bool_decide (nodeType node = ELEMENT_NODE))
       (document_childNodes doc).

End minidom.

Import minidom.

(** ** The binders of [binders.py]

    Bindings and call arguments are dictionaries with string keys.  The
    aggregate manager is read through [agg_mgr._delegate._my_urn] only. *)

Record Delegate : Type := mkDelegate { _my_urn : pystring }.
Record AggregateManager : Type := mkAggregateManager { _delegate : Delegate }.

Module Base_Binder.

Definition generate_bindings (method caller : string) (creds : list string)
    (args opts : gmap string string) (agg_mgr : AggregateManager)
  : result (gmap string string) :=
  mret ∅.

End Base_Binder.

(** [time.struct_time], the fields read by [Standard_Binder]. *)
Record struct_time : Type := mkStructTime
  { tm_hour : Z; tm_mon : Z; tm_year : Z; tm_wday : Z }.

Module Standard_Binder.
Section Standard_Binder.

(** [gid.GID(string=caller).get_urn()] and the value of [time.localtime()]
    at the time of the call. *)
Variable GID_get_urn : string → result string.
Variable localtime : struct_time.

Definition generate_bindings (method caller : string) (creds : list string)
    (args opts : gmap string string) (agg_mgr : AggregateManager)
  : result (gmap string string) :=
  let bindings : gmap string string := ∅ in
  let bindings := <["$METHOD" := method]> bindings in
  caller_urn ← GID_get_urn caller;
  let bindings := <["$CALLER" := caller_urn]> bindings in
  slice_urn ← dict_getitem args "slice_urn";
  let bindings := <["$SLICE_URN" := slice_urn]> bindings in
  project_urn ← Urn.convert_slice_urn_to_project_urn slice_urn;
  let bindings := <["$PROJECT_URN" := project_urn]> bindings in
  caller_authority ← Urn.convert_user_urn_to_authority_urn caller_urn;
  let bindings := <["$CALLER_AUTHORITY" := caller_authority]> bindings in
  let now := localtime in
  let bindings := <["$HOUR" := str_int (tm_hour now)]> bindings in
  let bindings := <["$MONTH" := str_int (tm_mon now)]> bindings in
  let bindings := <["$YEAR" := str_int (tm_year now)]> bindings in
  let bindings := <["$DAY_OF_WEEK" := str_int (tm_wday now)]> bindings in
  mret bindings.

(** [_retrieve_context_urns]: [None] stands for Python's [None]. *)
Definition _retrieve_context_urns (caller : string) (args : gmap string string)
  : result (string * option string * option string * string) :=
  '(slice_urn, project_urn) ←
    match args !! "slice_urn" with
    | Some slice_urn =>
        project_urn ← Urn.convert_slice_urn_to_project_urn slice_urn;
        mret (Some slice_urn, Some project_urn)
    | None => mret (None, None)
    end;
  caller_urn ← GID_get_urn caller;
  authority_urn ← Urn.convert_user_urn_to_authority_urn caller_urn;
  mret (caller_urn, slice_urn, project_urn, authority_urn).

End Standard_Binder.
End Standard_Binder.

Module SFA_Binder.
Section SFA_Binder.

(** [SFA_Authorizer.METHOD_ATTRIBUTES] and
    [CredentialVerifier.verify_from_strings]. *)
Variable METHOD_ATTRIBUTES : gmap string (gmap string (list string)).
Variable verify_from_strings :
  string → list string → option string → list string → gmap string string →
  result (list string).

Definition generate_bindings (method caller : string) (creds : list string)
    (args opts : gmap string string) (agg_mgr : AggregateManager)
  : result (gmap string string) :=
  let bindings : gmap string string := ∅ in
  let slice_urn : option string := None in
  let slice_urn :=
    match args !! "slice_urn" with
    | Some v => Some v
    | None => slice_urn
    end in
  method_attributes ← dict_getitem METHOD_ATTRIBUTES method;
  privileges ← dict_getitem method_attributes "privileges";
  bindings ←
    try_except_Exception
      (new_creds ← verify_from_strings caller creds slice_urn privileges opts;
       mret (<["$SFA_AUTHORIZED" := "True"]> bindings))
      (λ e, mret bindings);
  mret bindings.

End SFA_Binder.
End SFA_Binder.

Module Stitching_Binder.
Section Stitching_Binder.

(** [AM_Methods.CREATE_SLIVER_V2], [AM_Methods.ALLOCATE_V3] and
    [xml.dom.minidom.parseString]. *)
Variables CREATE_SLIVER_V2 ALLOCATE_V3 : string.
Variable parseString : string → result Document.

(** The inner [for] loop over the component managers of one link: on the
    first match the link is appended and the loop is left. *)
Fixpoint for_component_manager (am_urn : pystring) (link_elt : Node)
    (component_managers : list Node) (my_link_elts : list Node) : list Node :=
  match component_managers with
  | [] => my_link_elts
  | component_manager :: rest =>
      if py_eq (getAttribute component_manager "name") am_urn
      then my_link_elts ++ [link_elt]
      else for_component_manager am_urn link_elt rest my_link_elts
  end.

(** The outer [for] loop over [link_elts]. *)
Definition for_link_elt (am_urn : pystring) (link_elts : list Node)
  : list Node :=
  foldl (λ my_link_elts link_elt,
           for_component_manager am_urn link_elt
             (getElementsByTagName link_elt "component_manager") my_link_elts)
        [] link_elts.

(** The [for] loop over [my_paths]. *)
Definition for_path (my_paths : list Node) : list pystring :=
  foldl (λ requested_stitch_points path,
           let path_link_ids :=
             map (λ link, getAttribute link "id")
                 (getElementsByTagName path "link") in
           requested_stitch_points ++ path_link_ids)
        [] my_paths.

Definition generate_bindings (method caller : string) (creds : list string)
    (args opts : gmap string string) (agg_mgr : AggregateManager)
  : result (gmap string string) :=
  if bool_decide (method ∈ [CREATE_SLIVER_V2; ALLOCATE_V3]) then
    let am_urn := _my_urn (_delegate agg_mgr) in
    if bool_decide (args !! "rspec" = None) then mret ∅ else
    rspec_raw ← dict_getitem args "rspec";
    rspec_doc ← parseString rspec_raw;
    rspec_elt ← list_getitem (Document_getElementsByTagName rspec_doc "rspec") 0;
    let stitching_elts := getElementsByTagName rspec_elt "stitching" in
    if bool_decide (length stitching_elts = 0) then mret ∅ else
    stitching_elt ← list_getitem stitching_elts 0;
    let link_elts :=
      filter (λ elt, nodeType elt = ELEMENT_NODE ∧ tagName elt = "link")
             (childNodes rspec_elt) in
    let my_link_elts := for_link_elt am_urn link_elts in
    let my_link_ids :=
      map (λ link_elt, getAttribute link_elt "client_id") my_link_elts in
    let my_paths :=
      filter (λ path, list_contains (getAttribute path "id") my_link_ids = true)
             (getElementsByTagName stitching_elt "path") in
    let requested_stitch_points := for_path my_paths in
    mret {[ "$REQUESTED_STITCH_POINTS" := str_list requested_stitch_points ]}
  else mret ∅.

End Stitching_Binder.
End Stitching_Binder.

(** * Properties *)

(** ** String helpers *)

Section string_facts.

Lemma app_cons (c : Ascii.ascii) (s t : string) :
  String c s +:+ t = String c (s +:+ t).
Proof. reflexivity. Qed.

Lemma app_assoc_string (s t u : string) : (s +:+ t) +:+ u = s +:+ (t +:+ u).
Proof.
  induction s as [|c s IH]; [reflexivity|].
  rewrite !app_cons. by rewrite IH.
Qed.

Lemma occurs_app (c : Ascii.ascii) (s t : string) :
  occurs c (s +:+ t) = occurs c s || occurs c t.
Proof.
  induction s as [|c' s IH]; [reflexivity|].
  rewrite app_cons. simpl. by destruct (decide (c' = c)).
Qed.

Lemma split_not_nil (sep : Ascii.ascii) (s : string) : split sep s ≠ [].
Proof.
  destruct s as [|c s]; simpl; [done|].
  destruct (decide (c = sep)); [done|]. by destruct (split sep s).
Qed.

(** A string without the separator is a single piece. *)
Lemma split_absent (sep : Ascii.ascii) (s : string) :
  occurs sep s = false → split sep s = [s].
Proof.
  induction s as [|c s IH]; simpl; [done|].
  destruct (decide (c = sep)); [done|].
  intros Hs. by rewrite (IH Hs).
Qed.

(** The first piece ends at the first separator. *)
Lemma split_first (sep : Ascii.ascii) (a b : string) :
  occurs sep a = false →
  split sep (a +:+ String sep b) = a :: split sep b.
Proof.
  induction a as [|c a IH]; simpl.
  - intros _. by rewrite decide_True.
  - destruct (decide (c = sep)) as [|Hc]; [done|].
    intros Ha. by rewrite (IH Ha).
Qed.

(** A second piece exists exactly when the separator occurs. *)
Lemma split_second_absent (sep : Ascii.ascii) (s : string) :
  occurs sep s = false → split sep s !! 1 = None.
Proof. intros Hs. by rewrite (split_absent _ _ Hs). Qed.

Lemma split_second_present (sep : Ascii.ascii) (s seg : string) :
  split sep s !! 1 = Some seg → occurs sep s = true.
Proof.
  intros Hseg. destruct (occurs sep s) eqn:Hs; [done|].
  by rewrite (split_second_absent _ _ Hs) in Hseg.
Qed.

End string_facts.

(** ** URN derivation *)

Section urn_facts.

Local Abbreviation plus := ("+"%char).
Local Abbreviation colon := (":"%char).

(** The second [+]-delimited token of a URN that starts with the fixed
    prefix and whose authority segment holds no [+]. *)
Lemma second_token (seg rest : string) :
  occurs plus seg = false →
  split plus ("urn:publicid:IDN+" +:+ seg +:+ "+" +:+ rest) !! 1 = Some seg.
Proof.
  intros Hseg.
  change ("urn:publicid:IDN+" +:+ seg +:+ "+" +:+ rest)
    with ("urn:publicid:IDN" +:+ String plus (seg +:+ String plus rest)).
  rewrite split_first by reflexivity.
  by rewrite split_first.
Qed.

Lemma convert_user_urn_token (user_urn seg : string) :
  split plus user_urn !! 1 = Some seg →
  Urn.convert_user_urn_to_authority_urn user_urn
  = Ok (Urn._convert_urn seg "authority" "ca").
Proof.
  intros Hseg. unfold Urn.convert_user_urn_to_authority_urn, list_getitem.
  by rewrite Hseg.
Qed.

Lemma convert_urn_no_token (urn : string) :
  occurs plus urn = false →
  Urn.convert_slice_urn_to_project_urn urn = Raise IndexError
  ∧ Urn.convert_user_urn_to_authority_urn urn = Raise IndexError.
Proof.
  intros Hurn.
  unfold Urn.convert_slice_urn_to_project_urn,
    Urn.convert_user_urn_to_authority_urn, list_getitem.
  by rewrite (split_second_absent _ _ Hurn).
Qed.

Lemma convert_slice_urn_no_colon (slice_urn seg : string) :
  split plus slice_urn !! 1 = Some seg →
  occurs colon seg = false →
  Urn.convert_slice_urn_to_project_urn slice_urn = Raise IndexError.
Proof.
  intros Hseg Hcolon.
  unfold Urn.convert_slice_urn_to_project_urn, list_getitem.
  rewrite Hseg. simpl. by rewrite (split_absent _ _ Hcolon).
Qed.

(** C2: for every slice URN [urn:publicid:IDN+A:P+slice+S] whose components
    [A] and [P] hold neither [+] nor [:], the project URN derived from it is
    [urn:publicid:IDN+A+project+P]: [A] is the authority, [P] the name and
    the type is [project]. *)
Theorem convert_slice_urn_to_project_urn_spec (A P S : string) :
  occurs plus A = false → occurs colon A = false →
  occurs plus P = false → occurs colon P = false →
  Urn.convert_slice_urn_to_project_urn
    ("urn:publicid:IDN+" +:+ A +:+ ":" +:+ P +:+ "+slice+" +:+ S)
  = Ok ("urn:publicid:IDN+" +:+ A +:+ "+project+" +:+ P).
Proof.
  intros HA HA' HP HP'.
  assert (Htok : split plus
            ("urn:publicid:IDN+" +:+ A +:+ ":" +:+ P +:+ "+slice+" +:+ S) !! 1
          = Some (A +:+ String colon P)).
  { rewrite <- (second_token (A +:+ String colon P) ("slice+" +:+ S)).
    - f_equal. f_equal. f_equal. by rewrite !app_assoc_string.
    - by rewrite occurs_app, HA; simpl; rewrite HP. }
  unfold Urn.convert_slice_urn_to_project_urn, list_getitem.
  rewrite Htok. simpl.
  rewrite (split_first _ _ _ HA'), (split_absent _ _ HP'). simpl.
  reflexivity.
Qed.

Lemma convert_slice_urn_to_project_urn_spec_witness :
  Urn.convert_slice_urn_to_project_urn
    ("urn:publicid:IDN+" +:+ "example.org" +:+ ":" +:+ "myproj"
       +:+ "+slice+" +:+ "myslice")
  = Ok ("urn:publicid:IDN+" +:+ "example.org" +:+ "+project+" +:+ "myproj").
Proof.
  apply (convert_slice_urn_to_project_urn_spec "example.org" "myproj" "myslice");
    reflexivity.
Defined.

(** C1, as stated, fails on the example of the specification: the whole
    second token [example.org:bob] is kept as the authority, the part after
    the colon is not dropped. *)
Lemma convert_user_urn_keeps_subauthority :
  Urn.convert_user_urn_to_authority_urn
    "urn:publicid:IDN+example.org:bob+user+bob"
  = Ok "urn:publicid:IDN+example.org:bob+authority+ca"
  ∧ Urn.convert_user_urn_to_authority_urn
      "urn:publicid:IDN+example.org:bob+user+bob"
    ≠ Ok "urn:publicid:IDN+example.org+authority+ca".
Proof. split; [reflexivity | discriminate]. Qed.

(** C1, amended: for every user URN [urn:publicid:IDN+A:U+user+N] whose
    components [A] and [U] hold no [+], the authority URN derived from it is
    [urn:publicid:IDN+A:U+authority+ca]: its authority is the whole second
    token of the user URN, its type is [authority] and its name is [ca]. *)
Theorem convert_user_urn_to_authority_urn_spec (A U N : string) :
  occurs plus A = false → occurs plus U = false →
  Urn.convert_user_urn_to_authority_urn
    ("urn:publicid:IDN+" +:+ A +:+ ":" +:+ U +:+ "+user+" +:+ N)
  = Ok ("urn:publicid:IDN+" +:+ A +:+ ":" +:+ U +:+ "+authority+ca").
Proof.
  intros HA HU.
  rewrite (convert_user_urn_token _ (A +:+ String colon U)).
  - unfold Urn._convert_urn. by rewrite !app_assoc_string.
  - rewrite <- (second_token (A +:+ String colon U) ("user+" +:+ N)).
    + f_equal. f_equal. f_equal. by rewrite !app_assoc_string.
    + by rewrite occurs_app, HA; simpl; rewrite HU.
Qed.

Lemma convert_user_urn_to_authority_urn_spec_witness :
  Urn.convert_user_urn_to_authority_urn
    ("urn:publicid:IDN+" +:+ "example.org" +:+ ":" +:+ "bob"
       +:+ "+user+" +:+ "bob")
  = Ok ("urn:publicid:IDN+" +:+ "example.org" +:+ ":" +:+ "bob"
          +:+ "+authority+ca").
Proof.
  apply (convert_user_urn_to_authority_urn_spec "example.org" "bob" "bob");
    reflexivity.
Defined.

(** Malformed input in the sense of the specification: no [+] at all, or a
    second [+]-delimited token without [:]. *)
Definition malformed_urn (urn : string) : Prop :=
  occurs plus urn = false
  ∨ ∃ seg, split plus urn !! 1 = Some seg ∧ occurs colon seg = false.

Definition raises_class (cls : string) {A} (m : result A) : Prop :=
  ∃ e, m = Raise e ∧ exn_class e = cls.

(** C3, as stated, fails twice: a user URN whose second token has no colon
    is converted, not rejected; and what the slice conversion raises on it
    is [IndexError], there is no [MalformedUrnError]. *)
Lemma malformed_urn_not_rejected :
  malformed_urn "urn:publicid:IDN+example.org+user+bob"
  ∧ Urn.convert_user_urn_to_authority_urn
      "urn:publicid:IDN+example.org+user+bob"
    = Ok "urn:publicid:IDN+example.org+authority+ca"
  ∧ Urn.convert_slice_urn_to_project_urn
      "urn:publicid:IDN+example.org+user+bob"
    = Raise IndexError
  ∧ ¬ raises_class "MalformedUrnError"
        (Urn.convert_user_urn_to_authority_urn
           "urn:publicid:IDN+example.org+user+bob")
  ∧ ¬ raises_class "MalformedUrnError"
        (Urn.convert_slice_urn_to_project_urn
           "urn:publicid:IDN+example.org+user+bob").
Proof.
  split; [right; by exists "example.org"|].
  repeat split; try reflexivity.
  - intros (e & He & _). discriminate He.
  - intros (e & He & Hcls).
    assert (e = IndexError) as -> by (by injection He).
    discriminate Hcls.
Qed.

(** C3, amended: on a malformed URN the slice conversion raises
    [IndexError] and returns nothing; the user conversion raises
    [IndexError] when the input holds no [+], and otherwise, since it never
    looks for a colon, returns the authority URN built from the second
    token. *)
Theorem malformed_urn_IndexError (urn : string) :
  malformed_urn urn →
  Urn.convert_slice_urn_to_project_urn urn = Raise IndexError
  ∧ (occurs plus urn = false →
     Urn.convert_user_urn_to_authority_urn urn = Raise IndexError)
  ∧ (∀ seg, split plus urn !! 1 = Some seg →
     Urn.convert_user_urn_to_authority_urn urn
     = Ok ("urn:publicid:IDN+" +:+ seg +:+ "+authority+ca")).
Proof.
  intros Hbad. split; [|split].
  - destruct Hbad as [Hplus | (seg & Hseg & Hcolon)].
    + by apply convert_urn_no_token.
    + by apply (convert_slice_urn_no_colon _ seg).
  - intros Hplus. by apply convert_urn_no_token.
  - intros seg Hseg. by rewrite (convert_user_urn_token _ _ Hseg).
Qed.

Lemma malformed_urn_IndexError_witness :
  Urn.convert_slice_urn_to_project_urn "urn:publicid:IDN+example.org+user+bob" = Raise IndexError
  ∧ (occurs plus "urn:publicid:IDN+example.org+user+bob" = false →
     Urn.convert_user_urn_to_authority_urn "urn:publicid:IDN+example.org+user+bob"
     = Raise IndexError)
  ∧ (∀ seg, split plus "urn:publicid:IDN+example.org+user+bob" !! 1 = Some seg →
     Urn.convert_user_urn_to_authority_urn "urn:publicid:IDN+example.org+user+bob"
     = Ok ("urn:publicid:IDN+" +:+ seg +:+ "+authority+ca")).
Proof.
  apply (malformed_urn_IndexError "urn:publicid:IDN+example.org+user+bob").
  right. exists "example.org". split; reflexivity.
Defined.

End urn_facts.

(** ** The credential-check binder *)

Section sfa_facts.

Context (METHOD_ATTRIBUTES : gmap string (gmap string (list string))).
Context (verify_from_strings :
  string → list string → option string → list string → gmap string string →
  result (list string)).

Local Abbreviation sfa_bindings :=
  (SFA_Binder.generate_bindings METHOD_ATTRIBUTES verify_from_strings).

(** C4: once the privileges of the method have been read from the table,
    the binder returns exactly [{"$SFA_AUTHORIZED": "True"}] when the
    verifier (called with the caller, the credentials, the optional slice
    URN, these privileges and the options) succeeds, and the empty mapping,
    without raising, when the verifier raises any [Exception]. *)
Theorem sfa_bindings_follow_verifier
    (method caller : string) (creds : list string)
    (args opts : gmap string string) (agg_mgr : AggregateManager)
    (method_attributes : gmap string (list string))
    (privileges : list string) :
  METHOD_ATTRIBUTES !! method = Some method_attributes →
  method_attributes !! "privileges" = Some privileges →
  (∀ new_creds,
     verify_from_strings caller creds (args !! "slice_urn") privileges opts
     = Ok new_creds →
     sfa_bindings method caller creds args opts agg_mgr
     = Ok {[ "$SFA_AUTHORIZED" := "True" ]})
  ∧ (∀ e,
     verify_from_strings caller creds (args !! "slice_urn") privileges opts
     = Raise e →
     isinstance_Exception e = true →
     sfa_bindings method caller creds args opts agg_mgr = Ok ∅).
Proof.
  intros Hmethod Hpriv.
  assert (Hslice : match args !! "slice_urn" with
                   | Some v => Some v
                   | None => None
                   end = args !! "slice_urn") by (by destruct (args !! _)).
  split.
  - intros new_creds Hverify.
    unfold SFA_Binder.generate_bindings, dict_getitem.
    rewrite Hmethod. simpl. rewrite Hpriv. simpl.
    rewrite Hslice, Hverify. reflexivity.
  - intros e Hverify Hcaught.
    unfold SFA_Binder.generate_bindings, dict_getitem.
    rewrite Hmethod. simpl. rewrite Hpriv. simpl.
    rewrite Hslice, Hverify. simpl. by rewrite Hcaught.
Qed.

(** C10: the table is read before the [try] block, so a method that is not
    one of its keys makes the binder raise [KeyError] whatever the verifier
    would have answered. *)
Theorem sfa_bindings_unknown_method
    (method caller : string) (creds : list string)
    (args opts : gmap string string) (agg_mgr : AggregateManager) :
  METHOD_ATTRIBUTES !! method = None →
  sfa_bindings method caller creds args opts agg_mgr = Raise (KeyError method).
Proof.
  intros Hmethod. unfold SFA_Binder.generate_bindings, dict_getitem.
  by rewrite Hmethod.
Qed.

End sfa_facts.

(** ** The standard-context binder *)

Section standard_facts.

Context (GID_get_urn : string → result string) (localtime : struct_time).

Local Abbreviation standard_bindings :=
  (Standard_Binder.generate_bindings GID_get_urn localtime).

(** C8 (what the code does): without [slice_urn] among the arguments the
    binder returns no mapping at all: it raises, and once the caller has
    been decoded what it raises is [KeyError('slice_urn')].  The helper
    [_retrieve_context_urns] is the one that leaves the slice and project
    URNs out and still derives the caller's. *)
Theorem standard_bindings_without_slice_urn
    (method caller : string) (creds : list string)
    (args opts : gmap string string) (agg_mgr : AggregateManager) :
  args !! "slice_urn" = None →
  raises (standard_bindings method caller creds args opts agg_mgr)
  ∧ (∀ caller_urn, GID_get_urn caller = Ok caller_urn →
     standard_bindings method caller creds args opts agg_mgr
     = Raise (KeyError "slice_urn"))
  ∧ Standard_Binder._retrieve_context_urns GID_get_urn caller args
    = (caller_urn ← GID_get_urn caller;
       authority_urn ← Urn.convert_user_urn_to_authority_urn caller_urn;
       mret (caller_urn, None, None, authority_urn)).
Proof.
  intros Habsent.
  unfold Standard_Binder.generate_bindings,
    Standard_Binder._retrieve_context_urns, dict_getitem.
  rewrite Habsent.
  split; [|split].
  - destruct (GID_get_urn caller) as [caller_urn|e]; simpl; by eexists.
  - intros caller_urn Hcaller. by rewrite Hcaller.
  - reflexivity.
Qed.

End standard_facts.

(** ** The stitching binder *)

(** The selection described by the specification, step by step: the links
    that are direct children of the [rspec] element, those of them naming
    the aggregate in a nested [component_manager], their [client_id]s, the
    paths of the [stitching] element whose [id] is one of these, and the
    [id]s of the links nested in these paths. *)
Module StitchingSpec.

Definition direct_links (rspec_elt : Node) : list Node :=
  filter (λ elt, nodeType elt = ELEMENT_NODE ∧ tagName elt = "link")
         (childNodes rspec_elt).

Definition names_aggregate (am_urn : pystring) (link_elt : Node) : bool :=
  existsb (λ component_manager,
             py_eq (getAttribute component_manager "name") am_urn)
          (getElementsByTagName link_elt "component_manager").

Definition selected_links (am_urn : pystring) (rspec_elt : Node) : list Node :=
  filter (λ link_elt, names_aggregate am_urn link_elt = true)
         (direct_links rspec_elt).

Definition myLinkIds (am_urn : pystring) (rspec_elt : Node) : list pystring :=
  map (λ link_elt, getAttribute link_elt "client_id")
      (selected_links am_urn rspec_elt).

Definition selected_paths (am_urn : pystring) (rspec_elt stitching_elt : Node)
  : list Node :=
  filter (λ path, list_contains (getAttribute path "id")
                    (myLinkIds am_urn rspec_elt) = true)
         (getElementsByTagName stitching_elt "path").

Definition path_link_ids (path : Node) : list pystring :=
  map (λ link, getAttribute link "id") (getElementsByTagName path "link").

Definition requested_stitch_points (am_urn : pystring)
    (rspec_elt stitching_elt : Node) : list pystring :=
  flat_map path_link_ids (selected_paths am_urn rspec_elt stitching_elt).

(** An element carries attribute [attname] with a value equal to [x]. *)
Definition has_attribute_equal (n : Node) (attname : string) (x : pystring)
  : Prop :=
  ∃ attrs cs t value,
    n = Element t attrs cs ∧ attrs !! attname = Some value
    ∧ py_eq (Unicode value) x = true.

Definition chars (x : pystring) : string :=
  match x with
  | Str s => s
  | Unicode s => s
  end.

Definition has_rspec_root (doc : Document) : Prop :=
  ∃ root, documentElement doc = Some root ∧ tagName root = "rspec".

End StitchingSpec.

(** Sample requests.  Each document is given as its text and as the tree
    [parseString] builds from it; [parse_samples] is a parser that knows
    these texts only and rejects everything else as [ExpatError]. *)
Module Samples.

Definition am_urn : string := "urn:publicid:IDN+example.org+authority+am".

Definition agg_mgr : AggregateManager :=
  mkAggregateManager (mkDelegate (Str am_urn)).

Definition stitching_text : string :=
  "<rspec><link client_id='link0'><component_manager name='urn:publicid:IDN+example.org+authority+am'/></link><stitching><path id='link0'><hop id='1'><link id='L1'/></hop><hop id='2'><link id='L2'/></hop></path></stitching></rspec>".

Definition stitching_path : Node :=
  Element "path" {[ "id" := "link0" ]}
    [Element "hop" {[ "id" := "1" ]} [Element "link" {[ "id" := "L1" ]} []];
     Element "hop" {[ "id" := "2" ]} [Element "link" {[ "id" := "L2" ]} []]].

Definition stitching_component_manager : Node :=
  Element "component_manager" {[ "name" := am_urn ]} [].

Definition stitching_link : Node :=
  Element "link" {[ "client_id" := "link0" ]} [stitching_component_manager].

Definition stitching_stitching : Node := Element "stitching" ∅ [stitching_path].

Definition stitching_rspec : Node :=
  Element "rspec" ∅ [stitching_link; stitching_stitching].

Definition stitching_doc : Document := mkDocument [stitching_rspec].

(** Three links, the second of which names another aggregate only, and a
    path for each. *)
Definition three_paths_text : string :=
  "<rspec><link client_id='link0'><component_manager name='urn:publicid:IDN+example.org+authority+am'/></link><link client_id='link1'><component_manager name='urn:publicid:IDN+example.net+authority+am'/></link><link client_id='link2'><component_manager name='urn:publicid:IDN+example.net+authority+am'/><component_manager name='urn:publicid:IDN+example.org+authority+am'/></link><stitching><path id='link0'><hop><link id='A'/></hop><hop><link id='B'/></hop></path><path id='link1'><hop><link id='C'/></hop></path><path id='link2'><hop><link id='B'/></hop><hop><link id='D'/></hop></path></stitching></rspec>".

Definition other_urn : string := "urn:publicid:IDN+example.net+authority+am".

Definition hop_with_link (id : string) : Node :=
  Element "hop" ∅ [Element "link" {[ "id" := id ]} []].

Definition three_paths_stitching : Node :=
  Element "stitching" ∅
    [Element "path" {[ "id" := "link0" ]} [hop_with_link "A"; hop_with_link "B"];
     Element "path" {[ "id" := "link1" ]} [hop_with_link "C"];
     Element "path" {[ "id" := "link2" ]} [hop_with_link "B"; hop_with_link "D"]].

Definition three_paths_rspec : Node :=
  Element "rspec" ∅
    [Element "link" {[ "client_id" := "link0" ]}
       [Element "component_manager" {[ "name" := am_urn ]} []];
     Element "link" {[ "client_id" := "link1" ]}
       [Element "component_manager" {[ "name" := other_urn ]} []];
     Element "link" {[ "client_id" := "link2" ]}
       [Element "component_manager" {[ "name" := other_urn ]} [];
        Element "component_manager" {[ "name" := am_urn ]} []];
     three_paths_stitching].

Definition three_paths_doc : Document := mkDocument [three_paths_rspec].

Definition three_paths_args : gmap string string :=
  {[ "rspec" := three_paths_text ]}.

Definition nested_text : string := "<request><rspec/></request>".

Definition nested_doc : Document :=
  mkDocument [Element "request" ∅ [Element "rspec" ∅ []]].

Definition stitching_args : gmap string string :=
  {[ "rspec" := stitching_text ]}.

Definition nested_args : gmap string string := {[ "rspec" := nested_text ]}.

Definition parse_samples (rspec_raw : string) : result Document :=
  if bool_decide (rspec_raw = stitching_text) then Ok stitching_doc
  else if bool_decide (rspec_raw = three_paths_text) then Ok three_paths_doc
  else if bool_decide (rspec_raw = nested_text) then Ok nested_doc
  else Raise (Exception "ExpatError").

(** A privilege table with one method and a verifier that accepts every
    call; a GID decoder that reads the URN verbatim. *)
Definition method_attributes : gmap string (gmap string (list string)) :=
  {[ "ListResources" := {[ "privileges" := ["info"] ]} ]}.

Definition verify_always (caller : string) (creds : list string)
    (slice_urn : option string) (privileges : list string)
    (opts : gmap string string) : result (list string) :=
  Ok creds.

Definition gid_verbatim (caller : string) : result string := Ok caller.

Definition noon : struct_time :=
  {| tm_hour := 12; tm_mon := 11; tm_year := 2014; tm_wday := 2 |}.

End Samples.

Section stitching_facts.

Import StitchingSpec.

Context (CREATE_SLIVER_V2 ALLOCATE_V3 : string).
Context (parseString : string → result Document).

Local Abbreviation stitching_bindings :=
  (Stitching_Binder.generate_bindings CREATE_SLIVER_V2 ALLOCATE_V3 parseString).

(** The loops of the binder compute the selections of the specification. *)
Lemma for_component_manager_spec am_urn link_elt cms my_link_elts :
  Stitching_Binder.for_component_manager am_urn link_elt cms my_link_elts
  = if existsb (λ cm, py_eq (getAttribute cm "name") am_urn) cms
    then my_link_elts ++ [link_elt] else my_link_elts.
Proof.
  induction cms as [|cm cms IH]; simpl; [done|].
  destruct (py_eq (getAttribute cm "name") am_urn); [done|]. apply IH.
Qed.

Lemma for_link_elt_spec am_urn link_elts :
  Stitching_Binder.for_link_elt am_urn link_elts
  = filter (λ link_elt, names_aggregate am_urn link_elt = true) link_elts.
Proof.
  unfold Stitching_Binder.for_link_elt.
  rewrite <- (app_nil_l (filter _ link_elts)).
  generalize (@nil Node) as acc.
  induction link_elts as [|l ls IH]; intros acc; simpl.
  - by rewrite filter_nil, app_nil_r.
  - rewrite IH, for_component_manager_spec, filter_cons.
    fold (names_aggregate am_urn l).
    destruct (names_aggregate am_urn l) eqn:Hl.
    + rewrite decide_True by done. by rewrite <- app_assoc.
    + by rewrite decide_False by done.
Qed.

Lemma for_path_spec my_paths :
  Stitching_Binder.for_path my_paths = flat_map path_link_ids my_paths.
Proof.
  unfold Stitching_Binder.for_path.
  rewrite <- (app_nil_l (flat_map _ my_paths)).
  generalize (@nil pystring) as acc.
  induction my_paths as [|p ps IH]; intros acc; simpl.
  - by rewrite app_nil_r.
  - rewrite IH. fold (path_link_ids p). by rewrite <- app_assoc.
Qed.

(** The binder on a request whose [rspec] parses and holds an [rspec]
    element with a [stitching] element inside. *)
Lemma stitching_bindings_found
    (method caller : string) (creds : list string)
    (args opts : gmap string string) (agg_mgr : AggregateManager)
    (rspec_raw : string) (rspec_doc : Document) (rspec_elt stitching_elt : Node) :
  method ∈ [CREATE_SLIVER_V2; ALLOCATE_V3] →
  args !! "rspec" = Some rspec_raw →
  parseString rspec_raw = Ok rspec_doc →
  Document_getElementsByTagName rspec_doc "rspec" !! 0 = Some rspec_elt →
  getElementsByTagName rspec_elt "stitching" !! 0 = Some stitching_elt →
  stitching_bindings method caller creds args opts agg_mgr
  = Ok {[ "$REQUESTED_STITCH_POINTS" :=
          str_list (requested_stitch_points (_my_urn (_delegate agg_mgr))
                      rspec_elt stitching_elt) ]}.
Proof.
  intros Hmethod Hargs Hparse Hrspec Hstitching.
  unfold Stitching_Binder.generate_bindings, dict_getitem, list_getitem.
  rewrite bool_decide_true by done.
  rewrite Hargs. rewrite bool_decide_false by done. simpl.
  rewrite Hparse. simpl. rewrite Hrspec. simpl.
  rewrite bool_decide_false
    by (intros Hlen; apply nil_length_inv in Hlen; by rewrite Hlen in Hstitching).
  rewrite Hstitching. simpl.
  by rewrite for_link_elt_spec, for_path_spec.
Qed.

(** C6: for a method that is neither [CREATE_SLIVER_V2] nor [ALLOCATE_V3]
    the binder returns the empty mapping, whatever the caller, credentials,
    arguments and options are and whatever the parser would do with the
    [rspec] argument: the result does not depend on them. *)
Theorem stitching_bindings_other_method
    (method caller : string) (creds : list string)
    (args opts : gmap string string) (agg_mgr : AggregateManager) :
  method ∉ [CREATE_SLIVER_V2; ALLOCATE_V3] →
  stitching_bindings method caller creds args opts agg_mgr = Ok ∅.
Proof.
  intros Hmethod. unfold Stitching_Binder.generate_bindings.
  by rewrite bool_decide_false.
Qed.

(** Facts about the tree search. *)
Lemma non_element_contributes_nothing (name : string) (node : Node) :
  nodeType node ≠ ELEMENT_NODE →
  (if tag_matches name node then [node] else [])
  ++ _get_elements_by_tagName_helper name node = [].
Proof.
  intros Hnode. unfold tag_matches.
  rewrite bool_decide_false by done. by destruct node.
Qed.

Lemma documentElement_first (doc : Document) (root : Node) (name : string) :
  documentElement doc = Some root →
  tagName root = name →
  Document_getElementsByTagName doc name !! 0 = Some root.
Proof.
  unfold documentElement, Document_getElementsByTagName.
  induction (document_childNodes doc) as [|node nodes IH]; simpl; [done|].
  intros Hroot Hname. case_bool_decide as Hnode.
  - injection Hroot as ->. unfold tag_matches.
    rewrite bool_decide_true by done.
    rewrite (bool_decide_true (tagName root = name)) by done.
    by rewrite orb_true_r.
  - rewrite non_element_contributes_nothing by done.
    by apply IH.
Qed.

Lemma documentElement_descendants_nil (doc : Document) (root : Node)
    (name : string) :
  documentElement doc = Some root →
  Document_getElementsByTagName doc name = [] →
  getElementsByTagName root name = [].
Proof.
  unfold documentElement, Document_getElementsByTagName, getElementsByTagName.
  induction (document_childNodes doc) as [|node nodes IH]; simpl; [done|].
  intros Hroot Hnil.
  apply app_eq_nil in Hnil as [Hhead Hnodes].
  apply app_eq_nil in Hhead as [_ Hnode].
  case_bool_decide.
  - by injection Hroot as <-.
  - by apply IH.
Qed.

Lemma py_eq_chars (a b : pystring) : py_eq a b = true → chars a = chars b.
Proof.
  destruct a, b; simpl; intros H;
    repeat (apply andb_true_iff in H as [_ H]);
    by apply bool_decide_eq_true in H.
Qed.

Lemma getAttribute_equal (n : Node) (attname : string) (x : pystring) :
  chars x ≠ EmptyString →
  py_eq (getAttribute n attname) x = true ↔ has_attribute_equal n attname x.
Proof.
  intros Hx. split.
  - intros Heq. destruct n as [t attrs cs| | | | |];
      try (apply py_eq_chars in Heq; simpl in Heq; congruence).
    unfold getAttribute in Heq.
    destruct (attrs !! attname) as [value|] eqn:Hattr.
    + by exists attrs, cs, t, value.
    + apply py_eq_chars in Heq. simpl in Heq. congruence.
  - intros (attrs & cs & t & value & -> & Hattr & Heq). simpl.
    by rewrite Hattr.
Qed.

Lemma selected_links_iff (am_urn : pystring) (rspec_elt link_elt : Node) :
  link_elt ∈ selected_links am_urn rspec_elt
  ↔ link_elt ∈ childNodes rspec_elt
    ∧ nodeType link_elt = ELEMENT_NODE ∧ tagName link_elt = "link"
    ∧ ∃ component_manager,
        component_manager ∈ getElementsByTagName link_elt "component_manager"
        ∧ py_eq (getAttribute component_manager "name") am_urn = true.
Proof.
  unfold selected_links, direct_links, names_aggregate.
  rewrite !list_elem_of_filter, existsb_exists.
  setoid_rewrite <- list_elem_of_In.
  split.
  - intros ((cm & Hcm & Hname) & (Htype & Htag) & Hchild). eauto 10.
  - intros (Hchild & Htype & Htag & cm & Hcm & Hname). eauto 10.
Qed.

Lemma selected_paths_iff (am_urn : pystring) (rspec_elt stitching_elt path : Node) :
  path ∈ selected_paths am_urn rspec_elt stitching_elt
  ↔ path ∈ getElementsByTagName stitching_elt "path"
    ∧ ∃ link_elt,
        link_elt ∈ selected_links am_urn rspec_elt
        ∧ py_eq (getAttribute link_elt "client_id") (getAttribute path "id")
          = true.
Proof.
  unfold selected_paths, myLinkIds, list_contains.
  rewrite list_elem_of_filter, existsb_exists.
  setoid_rewrite in_map_iff. setoid_rewrite <- list_elem_of_In.
  split.
  - intros ((x & (link_elt & <- & Hlink) & Heq) & Hpath). eauto.
  - intros (Hpath & link_elt & Hlink & Heq). eauto 10.
Qed.

(** C7, amended: for a method of the two, the binder returns the empty
    mapping when there is no [rspec] argument, and when the document parses
    and the first [rspec] element found in it (the root in particular) has
    no [stitching] element inside; an error of the parser propagates, and a
    document holding no [rspec] element at any depth makes the binder raise
    [IndexError]. *)
Theorem stitching_bindings_optional
    (method caller : string) (creds : list string)
    (args opts : gmap string string) (agg_mgr : AggregateManager) :
  method ∈ [CREATE_SLIVER_V2; ALLOCATE_V3] →
  (args !! "rspec" = None →
   stitching_bindings method caller creds args opts agg_mgr = Ok ∅)
  ∧ (∀ rspec_raw rspec_doc rspec_elt,
       args !! "rspec" = Some rspec_raw →
       parseString rspec_raw = Ok rspec_doc →
       Document_getElementsByTagName rspec_doc "rspec" !! 0 = Some rspec_elt →
       getElementsByTagName rspec_elt "stitching" = [] →
       stitching_bindings method caller creds args opts agg_mgr = Ok ∅)
  ∧ (∀ rspec_raw rspec_doc,
       args !! "rspec" = Some rspec_raw →
       parseString rspec_raw = Ok rspec_doc →
       has_rspec_root rspec_doc →
       Document_getElementsByTagName rspec_doc "stitching" = [] →
       stitching_bindings method caller creds args opts agg_mgr = Ok ∅)
  ∧ (∀ rspec_raw e,
       args !! "rspec" = Some rspec_raw →
       parseString rspec_raw = Raise e →
       stitching_bindings method caller creds args opts agg_mgr = Raise e)
  ∧ (∀ rspec_raw rspec_doc,
       args !! "rspec" = Some rspec_raw →
       parseString rspec_raw = Ok rspec_doc →
       Document_getElementsByTagName rspec_doc "rspec" = [] →
       stitching_bindings method caller creds args opts agg_mgr
       = Raise IndexError).
Proof.
  intros Hmethod.
  assert (Hfirst : ∀ rspec_raw rspec_doc rspec_elt,
            args !! "rspec" = Some rspec_raw →
            parseString rspec_raw = Ok rspec_doc →
            Document_getElementsByTagName rspec_doc "rspec" !! 0
            = Some rspec_elt →
            getElementsByTagName rspec_elt "stitching" = [] →
            stitching_bindings method caller creds args opts agg_mgr = Ok ∅).
  { intros raw doc elt Hargs Hparse Hrspec Hnone.
    unfold Stitching_Binder.generate_bindings, dict_getitem, list_getitem.
    rewrite bool_decide_true by done.
    rewrite Hargs. rewrite bool_decide_false by done. simpl.
    rewrite Hparse. simpl. rewrite Hrspec. simpl.
    by rewrite Hnone. }
  repeat split.
  - intros Hargs. unfold Stitching_Binder.generate_bindings.
    rewrite bool_decide_true by done. by rewrite bool_decide_true.
  - exact Hfirst.
  - intros raw doc Hargs Hparse (root & Hroot & Htag) Hnone.
    apply (Hfirst raw doc root Hargs Hparse).
    + by apply documentElement_first.
    + by apply (documentElement_descendants_nil doc).
  - intros raw e Hargs Hparse.
    unfold Stitching_Binder.generate_bindings, dict_getitem.
    rewrite bool_decide_true by done.
    rewrite Hargs. rewrite bool_decide_false by done. simpl.
    by rewrite Hparse.
  - intros raw doc Hargs Hparse Hnone.
    unfold Stitching_Binder.generate_bindings, dict_getitem, list_getitem.
    rewrite bool_decide_true by done.
    rewrite Hargs. rewrite bool_decide_false by done. simpl.
    rewrite Hparse. simpl. by rewrite Hnone.
Qed.

(** C9: for a method of the two and a request whose document parses, has
    an [rspec] root and a [stitching] element inside it, the value
    bound to [$REQUESTED_STITCH_POINTS] is the printed list of the [id]s of
    the links nested in the selected paths, in document order and with
    repetitions.  A direct child link is selected exactly when one of its
    nested [component_manager] elements has a [name] equal to the
    aggregate's URN (equal strings have the same characters; for a URN that
    is not empty the attribute must be present), and a path of the
    [stitching] element exactly when its [id] equals the [client_id] of a
    selected link. *)
Theorem stitching_bindings_requested_points
    (method caller : string) (creds : list string)
    (args opts : gmap string string) (agg_mgr : AggregateManager)
    (am_urn : pystring)
    (rspec_raw : string) (rspec_doc : Document) (rspec_elt stitching_elt : Node) :
  method ∈ [CREATE_SLIVER_V2; ALLOCATE_V3] →
  _my_urn (_delegate agg_mgr) = am_urn →
  args !! "rspec" = Some rspec_raw →
  parseString rspec_raw = Ok rspec_doc →
  documentElement rspec_doc = Some rspec_elt →
  tagName rspec_elt = "rspec" →
  getElementsByTagName rspec_elt "stitching" !! 0 = Some stitching_elt →
  stitching_bindings method caller creds args opts agg_mgr
  = Ok {[ "$REQUESTED_STITCH_POINTS" :=
          str_list
            (flat_map
               (λ path, map (λ link, getAttribute link "id")
                            (getElementsByTagName path "link"))
               (selected_paths am_urn rspec_elt stitching_elt)) ]}
  ∧ (∀ link_elt,
       link_elt ∈ selected_links am_urn rspec_elt
       ↔ link_elt ∈ childNodes rspec_elt
         ∧ nodeType link_elt = ELEMENT_NODE ∧ tagName link_elt = "link"
         ∧ ∃ component_manager,
             component_manager
               ∈ getElementsByTagName link_elt "component_manager"
             ∧ py_eq (getAttribute component_manager "name") am_urn = true)
  ∧ (∀ path,
       path ∈ selected_paths am_urn rspec_elt stitching_elt
       ↔ path ∈ getElementsByTagName stitching_elt "path"
         ∧ ∃ link_elt,
             link_elt ∈ selected_links am_urn rspec_elt
             ∧ py_eq (getAttribute link_elt "client_id")
                     (getAttribute path "id") = true)
  ∧ (∀ a b, py_eq a b = true → chars a = chars b)
  ∧ (chars am_urn ≠ EmptyString →
     ∀ component_manager,
       py_eq (getAttribute component_manager "name") am_urn = true
       ↔ has_attribute_equal component_manager "name" am_urn).
Proof.
  intros Hmethod <- Hargs Hparse Hroot Htag Hstitching.
  split; [|split; [|split; [|split]]].
  - apply (stitching_bindings_found _ _ _ _ _ _ rspec_raw rspec_doc);
      try done.
    by apply documentElement_first.
  - intros link_elt. apply selected_links_iff.
  - intros path. apply selected_paths_iff.
  - apply py_eq_chars.
  - intros Hurn component_manager. by apply getAttribute_equal.
Qed.

(** C5, amended: for [CREATE_SLIVER_V2] and a request with an [rspec] root
    whose [stitching] element holds one path, whose [id] equals the [client_id] of a direct
    child link of the [rspec] element naming the aggregate in a
    [component_manager], and whose nested links carry the ids [L1] and [L2],
    the binder returns exactly
    [{"$REQUESTED_STITCH_POINTS": "[u'L1', u'L2']"}]. *)
Theorem stitching_bindings_two_links
    (caller : string) (creds : list string)
    (args opts : gmap string string) (agg_mgr : AggregateManager)
    (rspec_raw : string) (rspec_doc : Document)
    (rspec_elt stitching_elt link_elt component_manager path : Node) :
  args !! "rspec" = Some rspec_raw →
  parseString rspec_raw = Ok rspec_doc →
  documentElement rspec_doc = Some rspec_elt →
  tagName rspec_elt = "rspec" →
  getElementsByTagName rspec_elt "stitching" !! 0 = Some stitching_elt →
  getElementsByTagName stitching_elt "path" = [path] →
  link_elt ∈ direct_links rspec_elt →
  component_manager ∈ getElementsByTagName link_elt "component_manager" →
  py_eq (getAttribute component_manager "name") (_my_urn (_delegate agg_mgr))
  = true →
  py_eq (getAttribute link_elt "client_id") (getAttribute path "id") = true →
  map (λ link, getAttribute link "id") (getElementsByTagName path "link")
  = [Unicode "L1"; Unicode "L2"] →
  stitching_bindings CREATE_SLIVER_V2 caller creds args opts agg_mgr
  = Ok {[ "$REQUESTED_STITCH_POINTS" := "[u'L1', u'L2']" ]}.
Proof.
  intros Hargs Hparse Hroot Htag Hstitching Hpaths Hlink Hcm Hname Hid Hids.
  rewrite (stitching_bindings_found _ _ _ _ _ _ rspec_raw rspec_doc
             rspec_elt stitching_elt)
    by (done || by apply documentElement_first || by left).
  assert (Hsel : selected_paths (_my_urn (_delegate agg_mgr))
                   rspec_elt stitching_elt = [path]).
  { unfold selected_paths. rewrite Hpaths.
    apply filter_singleton_True; [exact []|].
    unfold myLinkIds, list_contains.
    apply existsb_exists. exists (getAttribute link_elt "client_id").
    split; [|done]. apply in_map_iff. exists link_elt. split; [done|].
    apply list_elem_of_In. unfold selected_links.
    apply list_elem_of_filter. split; [|done].
    unfold names_aggregate. apply existsb_exists.
    exists component_manager. split; [|done]. by apply list_elem_of_In. }
  unfold requested_stitch_points. rewrite Hsel. simpl.
  unfold path_link_ids. rewrite Hids. reflexivity.
Qed.

End stitching_facts.

(** ** The theorems on the sample requests *)

Section sample_facts.

Import StitchingSpec Samples.

Local Abbreviation sample_stitching_bindings :=
  (Stitching_Binder.generate_bindings "CreateSliverV2" "AllocateV3"
     parse_samples).

Lemma sfa_bindings_follow_verifier_witness :
  (∀ new_creds,
     verify_always "caller" ["cred"] ((∅ : gmap string string) !! "slice_urn")
       ["info"] ∅ = Ok new_creds →
     SFA_Binder.generate_bindings method_attributes verify_always
       "ListResources" "caller" ["cred"] ∅ ∅ agg_mgr
     = Ok {[ "$SFA_AUTHORIZED" := "True" ]})
  ∧ (∀ e,
     verify_always "caller" ["cred"] ((∅ : gmap string string) !! "slice_urn")
       ["info"] ∅ = Raise e →
     isinstance_Exception e = true →
     SFA_Binder.generate_bindings method_attributes verify_always
       "ListResources" "caller" ["cred"] ∅ ∅ agg_mgr
     = Ok ∅).
Proof.
  apply (sfa_bindings_follow_verifier method_attributes verify_always
           "ListResources" "caller" ["cred"] ∅ ∅ agg_mgr
           {[ "privileges" := ["info"] ]} ["info"]); reflexivity.
Defined.

Lemma sfa_bindings_unknown_method_witness :
  SFA_Binder.generate_bindings method_attributes verify_always
    "Shutdown" "caller" ["cred"] ∅ ∅ agg_mgr
  = Raise (KeyError "Shutdown").
Proof.
  apply (sfa_bindings_unknown_method method_attributes verify_always
           "Shutdown" "caller" ["cred"] ∅ ∅ agg_mgr).
  reflexivity.
Defined.

Lemma standard_bindings_without_slice_urn_witness :
  raises (Standard_Binder.generate_bindings gid_verbatim noon
            "ListResources" "urn:publicid:IDN+example.org+user+bob"
            ["cred"] ∅ ∅ agg_mgr)
  ∧ (∀ caller_urn,
       gid_verbatim "urn:publicid:IDN+example.org+user+bob" = Ok caller_urn →
       Standard_Binder.generate_bindings gid_verbatim noon
         "ListResources" "urn:publicid:IDN+example.org+user+bob"
         ["cred"] ∅ ∅ agg_mgr
       = Raise (KeyError "slice_urn"))
  ∧ Standard_Binder._retrieve_context_urns gid_verbatim
      "urn:publicid:IDN+example.org+user+bob" ∅
    = (caller_urn ← gid_verbatim "urn:publicid:IDN+example.org+user+bob";
       authority_urn ← Urn.convert_user_urn_to_authority_urn caller_urn;
       mret (caller_urn, None, None, authority_urn)).
Proof.
  apply (standard_bindings_without_slice_urn gid_verbatim noon
           "ListResources" "urn:publicid:IDN+example.org+user+bob"
           ["cred"] ∅ ∅ agg_mgr).
  reflexivity.
Defined.

Lemma stitching_bindings_other_method_witness :
  sample_stitching_bindings "ListResources" "caller" ["cred"]
    stitching_args ∅ agg_mgr
  = Ok ∅.
Proof.
  apply (stitching_bindings_other_method "CreateSliverV2" "AllocateV3"
           parse_samples "ListResources" "caller" ["cred"]
           stitching_args ∅ agg_mgr).
  apply (bool_decide_unpack _). reflexivity.
Defined.

(** C5, as stated, fails on the sample request: the list is printed by
    [str], which quotes each element and marks it as a [unicode] object. *)
Lemma stitch_points_are_printed_quoted :
  sample_stitching_bindings "CreateSliverV2" "caller" ["cred"]
    stitching_args ∅ agg_mgr
  = Ok {[ "$REQUESTED_STITCH_POINTS" := "[u'L1', u'L2']" ]}
  ∧ sample_stitching_bindings "CreateSliverV2" "caller" ["cred"]
      stitching_args ∅ agg_mgr
    ≠ Ok {[ "$REQUESTED_STITCH_POINTS" := "[L1, L2]" ]}.
Proof.
  assert (Hrun : sample_stitching_bindings "CreateSliverV2" "caller" ["cred"]
                   stitching_args ∅ agg_mgr
                 = Ok {[ "$REQUESTED_STITCH_POINTS" := "[u'L1', u'L2']" ]})
    by (vm_compute; reflexivity).
  split; [exact Hrun|].
  rewrite Hrun. intros Heq.
  apply (f_equal (λ r : result (gmap string string),
                    match r with
                    | Ok m => m !! "$REQUESTED_STITCH_POINTS"
                    | Raise _ => None
                    end)) in Heq.
  rewrite !lookup_singleton_eq in Heq. discriminate Heq.
Qed.

Lemma stitching_bindings_two_links_witness :
  sample_stitching_bindings "CreateSliverV2" "caller" ["cred"]
    stitching_args ∅ agg_mgr
  = Ok {[ "$REQUESTED_STITCH_POINTS" := "[u'L1', u'L2']" ]}.
Proof.
  apply (stitching_bindings_two_links "CreateSliverV2" "AllocateV3"
           parse_samples "caller" ["cred"] stitching_args ∅
           agg_mgr stitching_text stitching_doc stitching_rspec
           stitching_stitching stitching_link stitching_component_manager
           stitching_path);
    try reflexivity.
  - change (stitching_link ∈ [stitching_link]). constructor.
  - change (stitching_component_manager ∈ [stitching_component_manager]).
    constructor.
Defined.

(** C7, as stated, fails on a document whose root is not [rspec] but which
    holds an [rspec] element below the root: it is not rejected. *)
Lemma nested_rspec_is_accepted :
  parse_samples nested_text = Ok nested_doc
  ∧ ¬ has_rspec_root nested_doc
  ∧ sample_stitching_bindings "CreateSliverV2" "caller" ["cred"]
      nested_args ∅ agg_mgr
    = Ok ∅
  ∧ ¬ raises (sample_stitching_bindings "CreateSliverV2" "caller" ["cred"]
                nested_args ∅ agg_mgr).
Proof.
  assert (Hrun : sample_stitching_bindings "CreateSliverV2" "caller" ["cred"]
                   nested_args ∅ agg_mgr = Ok ∅)
    by (vm_compute; reflexivity).
  split; [reflexivity|]. split; [|split; [exact Hrun|]].
  - intros (root & Hroot & Htag).
    injection Hroot as <-. discriminate Htag.
  - rewrite Hrun. intros (e & He). discriminate He.
Qed.

Lemma stitching_bindings_optional_witness :
  (nested_args !! "rspec" = (None : option string) →
   sample_stitching_bindings "AllocateV3" "caller" ["cred"]
     nested_args ∅ agg_mgr = Ok ∅)
  ∧ (∀ rspec_raw rspec_doc rspec_elt,
       nested_args !! "rspec" = Some rspec_raw →
       parse_samples rspec_raw = Ok rspec_doc →
       Document_getElementsByTagName rspec_doc "rspec" !! 0 = Some rspec_elt →
       getElementsByTagName rspec_elt "stitching" = [] →
       sample_stitching_bindings "AllocateV3" "caller" ["cred"]
         nested_args ∅ agg_mgr = Ok ∅)
  ∧ (∀ rspec_raw rspec_doc,
       nested_args !! "rspec" = Some rspec_raw →
       parse_samples rspec_raw = Ok rspec_doc →
       has_rspec_root rspec_doc →
       Document_getElementsByTagName rspec_doc "stitching" = [] →
       sample_stitching_bindings "AllocateV3" "caller" ["cred"]
         nested_args ∅ agg_mgr = Ok ∅)
  ∧ (∀ rspec_raw e,
       nested_args !! "rspec" = Some rspec_raw →
       parse_samples rspec_raw = Raise e →
       sample_stitching_bindings "AllocateV3" "caller" ["cred"]
         nested_args ∅ agg_mgr = Raise e)
  ∧ (∀ rspec_raw rspec_doc,
       nested_args !! "rspec" = Some rspec_raw →
       parse_samples rspec_raw = Ok rspec_doc →
       Document_getElementsByTagName rspec_doc "rspec" = [] →
       sample_stitching_bindings "AllocateV3" "caller" ["cred"]
         nested_args ∅ agg_mgr = Raise IndexError).
Proof.
  apply (stitching_bindings_optional "CreateSliverV2" "AllocateV3"
           parse_samples "AllocateV3" "caller" ["cred"]
           nested_args ∅ agg_mgr).
  apply (bool_decide_unpack _). reflexivity.
Defined.

Lemma stitching_bindings_requested_points_witness :
  sample_stitching_bindings "AllocateV3" "caller" ["cred"]
    three_paths_args ∅ agg_mgr
  = Ok {[ "$REQUESTED_STITCH_POINTS" := "[u'A', u'B', u'B', u'D']" ]}.
Proof.
  refine (proj1 (stitching_bindings_requested_points
                   "CreateSliverV2" "AllocateV3" parse_samples
                   "AllocateV3" "caller" ["cred"] three_paths_args ∅ agg_mgr
                   (Str am_urn) three_paths_text three_paths_doc
                   three_paths_rspec three_paths_stitching _ _ _ _ _ _ _));
    try reflexivity.
  apply (bool_decide_unpack _). reflexivity.
Defined.

End sample_facts.

(** * Further properties of [binders.py] *)

(** ** More on [split] *)

Section split_more.

(** No piece of a split holds the separator. *)
Lemma split_pieces_clean (sep : Ascii.ascii) (s piece : string) :
  piece ∈ split sep s → occurs sep piece = false.
Proof.
  revert piece. induction s as [|c s IH]; simpl; intros piece Hin.
  - apply list_elem_of_singleton in Hin as ->. reflexivity.
  - destruct (decide (c = sep)) as [|Hc].
    + apply elem_of_cons in Hin as [->|Hin]; [reflexivity | by apply IH].
    + destruct (split sep s) as [|p ps].
      * apply list_elem_of_singleton in Hin as ->. simpl.
        by rewrite decide_False.
      * apply elem_of_cons in Hin as [->|Hin].
        -- simpl. rewrite decide_False by done. apply IH. by left.
        -- apply IH. by right.
Qed.

(** A piece holds no character that the whole string does not hold. *)
Lemma split_pieces_preserve (sep c : Ascii.ascii) (s piece : string) :
  occurs c s = false → piece ∈ split sep s → occurs c piece = false.
Proof.
  revert piece. induction s as [|c' s IH]; simpl; intros piece Hs Hin.
  - apply list_elem_of_singleton in Hin as ->. reflexivity.
  - destruct (decide (c' = c)) as [|Hc]; [done|].
    destruct (decide (c' = sep)).
    + apply elem_of_cons in Hin as [->|Hin]; [reflexivity | by apply IH].
    + destruct (split sep s) as [|p ps].
      * apply list_elem_of_singleton in Hin as ->. simpl.
        by rewrite decide_False.
      * apply elem_of_cons in Hin as [->|Hin].
        -- simpl. rewrite decide_False by done. apply IH; [done | by left].
        -- apply IH; [done | by right].
Qed.

Lemma split_second_exists (sep : Ascii.ascii) (s : string) :
  occurs sep s = true → ∃ seg, split sep s !! 1 = Some seg.
Proof.
  induction s as [|c s IH]; simpl; [done|].
  destruct (decide (c = sep)).
  - intros _. destruct (split sep s) as [|p ps] eqn:Hsplit.
    + by apply split_not_nil in Hsplit.
    + by exists p.
  - intros Hs. destruct (IH Hs) as [seg Hseg].
    destruct (split sep s) as [|p ps]; [done|]. by exists seg.
Qed.

End split_more.

(** ** More on the URN helpers *)

Section urn_more.

Local Abbreviation plus := ("+"%char).
Local Abbreviation colon := (":"%char).

(** The second token of any string [pre+seg+rest]. *)
Lemma second_token_any (pre seg rest : string) :
  occurs plus pre = false → occurs plus seg = false →
  split plus (pre +:+ String plus (seg +:+ String plus rest)) !! 1 = Some seg.
Proof. intros Hpre Hseg. by rewrite !split_first. Qed.

Lemma second_token_last (pre seg : string) :
  occurs plus pre = false → occurs plus seg = false →
  split plus (pre +:+ String plus seg) !! 1 = Some seg.
Proof.
  intros Hpre Hseg. by rewrite split_first, (split_absent _ _ Hseg).
Qed.

Lemma convert_urn_segments (value obj_type obj_name : string) :
  occurs plus value = false → occurs plus obj_type = false →
  occurs plus obj_name = false →
  split plus (Urn._convert_urn value obj_type obj_name)
  = ["urn:publicid:IDN"; value; obj_type; obj_name].
Proof.
  intros Hv Ht Hn.
  change (Urn._convert_urn value obj_type obj_name)
    with ("urn:publicid:IDN"
            +:+ String plus (value +:+ String plus
                               (obj_type +:+ String plus obj_name))).
  rewrite split_first by reflexivity.
  rewrite (split_first _ _ _ Hv), (split_first _ _ _ Ht).
  by rewrite (split_absent _ _ Hn).
Qed.

Lemma convert_slice_urn_token (slice_urn seg auth name : string)
    (rest : list string) :
  split plus slice_urn !! 1 = Some seg →
  split colon seg = auth :: name :: rest →
  Urn.convert_slice_urn_to_project_urn slice_urn
  = Ok (Urn._convert_urn auth "project" name).
Proof.
  intros Hseg Hparts.
  unfold Urn.convert_slice_urn_to_project_urn, list_getitem.
  rewrite Hseg. simpl. by rewrite Hparts.
Qed.

(** What a successful slice conversion tells about its input and output. *)
Lemma convert_slice_urn_inv (slice_urn project_urn : string) :
  Urn.convert_slice_urn_to_project_urn slice_urn = Ok project_urn →
  ∃ seg auth name rest,
    split plus slice_urn !! 1 = Some seg
    ∧ split colon seg = auth :: name :: rest
    ∧ project_urn = Urn._convert_urn auth "project" name
    ∧ occurs plus auth = false ∧ occurs colon auth = false
    ∧ occurs plus name = false ∧ occurs colon name = false.
Proof.
  unfold Urn.convert_slice_urn_to_project_urn, list_getitem.
  destruct (split plus slice_urn !! 1) as [seg|] eqn:Hseg; [|done]. simpl.
  destruct (split colon seg) as [|auth [|name rest]] eqn:Hparts; try done.
  simpl. intros [= <-].
  assert (Hclean : occurs plus seg = false)
    by (eapply split_pieces_clean, list_elem_of_lookup_2, Hseg).
  assert (Hauth : auth ∈ split colon seg) by (rewrite Hparts; by left).
  assert (Hname : name ∈ split colon seg)
    by (rewrite Hparts; right; by left).
  exists seg, auth, name, rest.
  repeat split; eauto using split_pieces_clean, split_pieces_preserve.
Qed.

Lemma convert_user_urn_inv (user_urn authority_urn : string) :
  Urn.convert_user_urn_to_authority_urn user_urn = Ok authority_urn →
  ∃ seg,
    split plus user_urn !! 1 = Some seg
    ∧ authority_urn = Urn._convert_urn seg "authority" "ca"
    ∧ occurs plus seg = false.
Proof.
  unfold Urn.convert_user_urn_to_authority_urn, list_getitem.
  destruct (split plus user_urn !! 1) as [seg|] eqn:Hseg; [|done]. simpl.
  intros [= <-]. exists seg. repeat split.
  eapply split_pieces_clean, list_elem_of_lookup_2, Hseg.
Qed.

End urn_more.

Section urn_extra.

Local Abbreviation plus := ("+"%char).
Local Abbreviation colon := (":"%char).

(** X1: the slice conversion returns a URN exactly when the input has a
    second [+]-delimited token that holds a colon, the user conversion
    exactly when the input holds a [+]; neither raises anything but
    [IndexError]. *)
Theorem urn_conversions_succeed_iff (urn : string) :
  ((∃ project_urn,
      Urn.convert_slice_urn_to_project_urn urn = Ok project_urn)
   ↔ ∃ seg, split plus urn !! 1 = Some seg ∧ occurs colon seg = true)
  ∧ ((∃ authority_urn,
        Urn.convert_user_urn_to_authority_urn urn = Ok authority_urn)
     ↔ occurs plus urn = true)
  ∧ (∀ e, Urn.convert_slice_urn_to_project_urn urn = Raise e → e = IndexError)
  ∧ (∀ e, Urn.convert_user_urn_to_authority_urn urn = Raise e → e = IndexError).
Proof.
  split; [|split; [|split]].
  - split.
    + intros [project_urn Hok].
      apply convert_slice_urn_inv in Hok
        as (seg & auth & name & rest & Hseg & Hparts & _).
      exists seg. split; [done|].
      destruct (occurs colon seg) eqn:Hcolon; [done|].
      by rewrite (split_absent _ _ Hcolon) in Hparts.
    + intros (seg & Hseg & Hcolon).
      destruct (split_second_exists _ _ Hcolon) as [name Hname].
      destruct (split colon seg) as [|auth [|name' rest]] eqn:Hparts;
        try done.
      eexists. by apply (convert_slice_urn_token _ seg auth name' rest).
  - split.
    + intros [authority_urn Hok].
      apply convert_user_urn_inv in Hok as (seg & Hseg & _).
      by apply (split_second_present _ _ seg).
    + intros Hplus. destruct (split_second_exists _ _ Hplus) as [seg Hseg].
      eexists. by apply convert_user_urn_token.
  - unfold Urn.convert_slice_urn_to_project_urn, list_getitem.
    intros e He.
    destruct (split plus urn !! 1) as [seg|]; simpl in He; [|congruence].
    destruct (split colon seg) as [|auth [|name rest]]; simpl in He;
      try congruence.
    discriminate He.
  - unfold Urn.convert_user_urn_to_authority_urn, list_getitem.
    intros e He.
    destruct (split plus urn !! 1) as [seg|]; simpl in He;
      [discriminate He | congruence].
Qed.

(** X2: the slice conversion reads the second token only.  Whatever stands
    before the first [+] (the prefix [urn:publicid:IDN] is not checked) and
    after the second one (the type is not checked), and whatever follows a
    second colon inside the token, the project URN is built from the first
    two colon-separated parts of the token. *)
Theorem convert_slice_urn_reads_second_token (pre A P Q rest : string) :
  occurs plus pre = false →
  occurs plus A = false → occurs colon A = false →
  occurs plus P = false → occurs colon P = false →
  occurs plus Q = false →
  Urn.convert_slice_urn_to_project_urn
    (pre +:+ "+" +:+ A +:+ ":" +:+ P +:+ ":" +:+ Q +:+ "+" +:+ rest)
  = Ok ("urn:publicid:IDN+" +:+ A +:+ "+project+" +:+ P).
Proof.
  intros Hpre HA HA' HP HP' HQ.
  set (seg := A +:+ String colon (P +:+ String colon Q)).
  assert (Hseg : occurs plus seg = false).
  { unfold seg. rewrite occurs_app, HA. simpl.
    rewrite occurs_app, HP. simpl. exact HQ. }
  rewrite (convert_slice_urn_token _ seg A P (split colon Q)).
  - reflexivity.
  - rewrite <- (second_token_any pre seg rest Hpre Hseg).
    f_equal. f_equal. f_equal. unfold seg.
    by rewrite !app_assoc_string, !app_cons, !app_assoc_string.
  - unfold seg. by rewrite (split_first _ _ _ HA'), (split_first _ _ _ HP').
Qed.

Lemma convert_slice_urn_reads_second_token_witness :
  Urn.convert_slice_urn_to_project_urn
    ("anything" +:+ "+" +:+ "geni" +:+ ":" +:+ "gpo" +:+ ":" +:+ "gcf"
       +:+ "+" +:+ "user+alice")
  = Ok ("urn:publicid:IDN+" +:+ "geni" +:+ "+project+" +:+ "gpo").
Proof.
  apply (convert_slice_urn_reads_second_token
           "anything" "geni" "gpo" "gcf" "user+alice"); reflexivity.
Defined.

(** X3: a project URN returned by the slice conversion always has exactly
    four [+]-delimited segments: the fixed prefix, an authority, the type
    [project] and a name; the authority and the name hold no colon. *)
Theorem project_urn_has_four_segments (slice_urn project_urn : string) :
  Urn.convert_slice_urn_to_project_urn slice_urn = Ok project_urn →
  ∃ auth name,
    split plus project_urn = ["urn:publicid:IDN"; auth; "project"; name]
    ∧ occurs colon auth = false ∧ occurs colon name = false.
Proof.
  intros Hok.
  apply convert_slice_urn_inv in Hok
    as (seg & auth & name & rest & _ & _ & -> & Ha & Ha' & Hn & Hn').
  exists auth, name. split; [|done].
  by apply convert_urn_segments.
Qed.

Lemma project_urn_has_four_segments_witness :
  ∃ auth name,
    split plus "urn:publicid:IDN+example.org+project+myproj"
    = ["urn:publicid:IDN"; auth; "project"; name]
    ∧ occurs colon auth = false ∧ occurs colon name = false.
Proof.
  apply (project_urn_has_four_segments
           "urn:publicid:IDN+example.org:myproj+slice+myslice").
  reflexivity.
Defined.

(** X4: a project URN returned by the slice conversion is never itself
    accepted by the slice conversion: its second token holds no colon, so
    converting it raises [IndexError]. *)
Theorem project_urn_is_not_converted (slice_urn project_urn : string) :
  Urn.convert_slice_urn_to_project_urn slice_urn = Ok project_urn →
  Urn.convert_slice_urn_to_project_urn project_urn = Raise IndexError.
Proof.
  intros Hok.
  apply convert_slice_urn_inv in Hok
    as (seg & auth & name & rest & _ & _ & -> & Ha & Ha' & Hn & Hn').
  apply (convert_slice_urn_no_colon _ auth); [|done].
  by rewrite convert_urn_segments.
Qed.

Lemma project_urn_is_not_converted_witness :
  Urn.convert_slice_urn_to_project_urn
    "urn:publicid:IDN+example.org+project+myproj"
  = Raise IndexError.
Proof.
  apply (project_urn_is_not_converted
           "urn:publicid:IDN+example.org:myproj+slice+myslice").
  reflexivity.
Defined.

(** X5: the user conversion is idempotent: an authority URN it returned is
    converted to itself. *)
Theorem convert_user_urn_idempotent (user_urn authority_urn : string) :
  Urn.convert_user_urn_to_authority_urn user_urn = Ok authority_urn →
  Urn.convert_user_urn_to_authority_urn authority_urn = Ok authority_urn.
Proof.
  intros Hok.
  apply convert_user_urn_inv in Hok as (seg & _ & -> & Hseg).
  apply convert_user_urn_token.
  by rewrite convert_urn_segments.
Qed.

Lemma convert_user_urn_idempotent_witness :
  Urn.convert_user_urn_to_authority_urn
    "urn:publicid:IDN+example.org+authority+ca"
  = Ok "urn:publicid:IDN+example.org+authority+ca".
Proof.
  apply (convert_user_urn_idempotent "urn:publicid:IDN+example.org+user+bob").
  reflexivity.
Defined.

End urn_extra.

(** ** More on the standard-context binder *)

Section standard_extra.

Context (GID_get_urn : string → result string) (localtime : struct_time).

Local Abbreviation plus := ("+"%char).
Local Abbreviation colon := (":"%char).

Local Abbreviation standard_bindings :=
  (Standard_Binder.generate_bindings GID_get_urn localtime).
Local Abbreviation retrieve_context_urns :=
  (Standard_Binder._retrieve_context_urns GID_get_urn).

(** The mapping built on the successful path. *)
Definition standard_mapping (method caller_urn slice_urn project_urn
    caller_authority : string) : gmap string string :=
  <["$DAY_OF_WEEK" := str_int (tm_wday localtime)]>
  (<["$YEAR" := str_int (tm_year localtime)]>
  (<["$MONTH" := str_int (tm_mon localtime)]>
  (<["$HOUR" := str_int (tm_hour localtime)]>
  (<["$CALLER_AUTHORITY" := caller_authority]>
  (<["$PROJECT_URN" := project_urn]>
  (<["$SLICE_URN" := slice_urn]>
  (<["$CALLER" := caller_urn]>
  (<["$METHOD" := method]> ∅)))))))).

Lemma standard_bindings_steps
    (method caller : string) (creds : list string)
    (args opts : gmap string string) (agg_mgr : AggregateManager)
    (caller_urn slice_urn project_urn caller_authority : string) :
  GID_get_urn caller = Ok caller_urn →
  args !! "slice_urn" = Some slice_urn →
  Urn.convert_slice_urn_to_project_urn slice_urn = Ok project_urn →
  Urn.convert_user_urn_to_authority_urn caller_urn = Ok caller_authority →
  standard_bindings method caller creds args opts agg_mgr
  = Ok (standard_mapping method caller_urn slice_urn project_urn
          caller_authority).
Proof.
  intros Hcaller Hslice Hproject Hauthority.
  unfold Standard_Binder.generate_bindings, dict_getitem.
  rewrite Hcaller. simpl. rewrite Hslice. simpl.
  rewrite Hproject. simpl. by rewrite Hauthority.
Qed.

Lemma standard_bindings_inv
    (method caller : string) (creds : list string)
    (args opts : gmap string string) (agg_mgr : AggregateManager)
    (bindings : gmap string string) :
  standard_bindings method caller creds args opts agg_mgr = Ok bindings →
  ∃ caller_urn slice_urn project_urn caller_authority,
    GID_get_urn caller = Ok caller_urn
    ∧ args !! "slice_urn" = Some slice_urn
    ∧ Urn.convert_slice_urn_to_project_urn slice_urn = Ok project_urn
    ∧ Urn.convert_user_urn_to_authority_urn caller_urn = Ok caller_authority
    ∧ bindings = standard_mapping method caller_urn slice_urn project_urn
                   caller_authority.
Proof.
  unfold Standard_Binder.generate_bindings, dict_getitem.
  destruct (GID_get_urn caller) as [caller_urn|]; [simpl|done].
  destruct (args !! "slice_urn") as [slice_urn|]; [simpl|done].
  destruct (Urn.convert_slice_urn_to_project_urn slice_urn)
    as [project_urn|] eqn:Hproject; [simpl|done].
  destruct (Urn.convert_user_urn_to_authority_urn caller_urn)
    as [caller_authority|] eqn:Hauthority; [simpl|done].
  intros [= <-]. by exists caller_urn, slice_urn, project_urn, caller_authority.
Qed.

(** X6: the binder is all or nothing.  A mapping it returns has exactly the
    nine keys; [$METHOD] is the method as given, [$SLICE_URN] the argument
    as given, [$CALLER] the URN decoded from the caller, and the four time
    variables are the decimal strings of the clock's fields. *)
Theorem standard_bindings_complete
    (method caller : string) (creds : list string)
    (args opts : gmap string string) (agg_mgr : AggregateManager)
    (bindings : gmap string string) :
  standard_bindings method caller creds args opts agg_mgr = Ok bindings →
  dom bindings
  = {[ "$METHOD"; "$CALLER"; "$SLICE_URN"; "$PROJECT_URN";
       "$CALLER_AUTHORITY"; "$HOUR"; "$MONTH"; "$YEAR"; "$DAY_OF_WEEK" ]}
  ∧ bindings !! "$METHOD" = Some method
  ∧ bindings !! "$SLICE_URN" = args !! "slice_urn"
  ∧ (∃ caller_urn, GID_get_urn caller = Ok caller_urn
                   ∧ bindings !! "$CALLER" = Some caller_urn)
  ∧ bindings !! "$HOUR" = Some (str_int (tm_hour localtime))
  ∧ bindings !! "$MONTH" = Some (str_int (tm_mon localtime))
  ∧ bindings !! "$YEAR" = Some (str_int (tm_year localtime))
  ∧ bindings !! "$DAY_OF_WEEK" = Some (str_int (tm_wday localtime)).
Proof.
  intros Hok.
  apply standard_bindings_inv in Hok
    as (caller_urn & slice_urn & project_urn & caller_authority
        & Hcaller & Hslice & _ & _ & ->).
  unfold standard_mapping. split.
  - rewrite !dom_insert_L, dom_empty_L. set_solver.
  - rewrite Hslice. repeat split; try by simplify_map_eq.
    exists caller_urn. by simplify_map_eq.
Qed.

(** X7: on a well-formed request the binder does return a mapping: when the
    caller decodes to [urn:publicid:IDN+CA+user+N] and the slice URN is
    [urn:publicid:IDN+A:P+slice+S], the project bound is
    [urn:publicid:IDN+A+project+P] and the caller's authority is
    [urn:publicid:IDN+CA+authority+ca]. *)
Theorem standard_bindings_wellformed_request
    (method caller : string) (creds : list string)
    (args opts : gmap string string) (agg_mgr : AggregateManager)
    (CA N A P S : string) :
  occurs plus CA = false →
  occurs plus A = false → occurs colon A = false →
  occurs plus P = false → occurs colon P = false →
  GID_get_urn caller = Ok ("urn:publicid:IDN+" +:+ CA +:+ "+user+" +:+ N) →
  args !! "slice_urn"
  = Some ("urn:publicid:IDN+" +:+ A +:+ ":" +:+ P +:+ "+slice+" +:+ S) →
  ∃ bindings,
    standard_bindings method caller creds args opts agg_mgr = Ok bindings
    ∧ bindings !! "$PROJECT_URN"
      = Some ("urn:publicid:IDN+" +:+ A +:+ "+project+" +:+ P)
    ∧ bindings !! "$CALLER_AUTHORITY"
      = Some ("urn:publicid:IDN+" +:+ CA +:+ "+authority+ca").
Proof.
  intros HCA HA HA' HP HP' Hcaller Hslice.
  eexists. split.
  - apply (standard_bindings_steps _ _ _ _ _ _ _ _
             (Urn._convert_urn A "project" P)
             (Urn._convert_urn CA "authority" "ca") Hcaller Hslice).
    + apply (convert_slice_urn_token _ (A +:+ String colon P) A P []).
      * rewrite <- (second_token (A +:+ String colon P) ("slice+" +:+ S)).
        -- f_equal. f_equal. f_equal. by rewrite !app_assoc_string.
        -- by rewrite occurs_app, HA; simpl; rewrite HP.
      * by rewrite (split_first _ _ _ HA'), (split_absent _ _ HP').
    + apply convert_user_urn_token.
      by apply (second_token CA ("user+" +:+ N)).
  - unfold standard_mapping. by simplify_map_eq.
Qed.

(** X8: the binder and the helper [_retrieve_context_urns] agree.  The URNs
    bound by a successful call of the binder are the ones the helper
    returns on the same caller and arguments, and whenever the helper
    returns a slice URN the binder succeeds. *)
Theorem standard_bindings_agree_with_helper
    (method caller : string) (creds : list string)
    (args opts : gmap string string) (agg_mgr : AggregateManager) :
  (∀ bindings,
     standard_bindings method caller creds args opts agg_mgr = Ok bindings →
     ∃ caller_urn slice_urn project_urn authority_urn,
       retrieve_context_urns caller args
       = Ok (caller_urn, Some slice_urn, Some project_urn, authority_urn)
       ∧ bindings !! "$CALLER" = Some caller_urn
       ∧ bindings !! "$SLICE_URN" = Some slice_urn
       ∧ bindings !! "$PROJECT_URN" = Some project_urn
       ∧ bindings !! "$CALLER_AUTHORITY" = Some authority_urn)
  ∧ (∀ caller_urn slice_urn project_urn authority_urn,
       retrieve_context_urns caller args
       = Ok (caller_urn, Some slice_urn, project_urn, authority_urn) →
       ∃ bindings,
         standard_bindings method caller creds args opts agg_mgr
         = Ok bindings).
Proof.
  split.
  - intros bindings Hok.
    apply standard_bindings_inv in Hok
      as (caller_urn & slice_urn & project_urn & caller_authority
          & Hcaller & Hslice & Hproject & Hauthority & ->).
    exists caller_urn, slice_urn, project_urn, caller_authority.
    split; [|unfold standard_mapping; by simplify_map_eq].
    unfold Standard_Binder._retrieve_context_urns.
    rewrite Hslice, Hproject. simpl. rewrite Hcaller. simpl.
    by rewrite Hauthority.
  - intros caller_urn slice_urn project_urn authority_urn.
    unfold Standard_Binder._retrieve_context_urns.
    destruct (args !! "slice_urn") as [slice_urn'|] eqn:Hslice; simpl.
    + destruct (Urn.convert_slice_urn_to_project_urn slice_urn')
        as [project_urn'|] eqn:Hproject; [simpl|done].
      destruct (GID_get_urn caller) as [caller_urn'|] eqn:Hcaller;
        [simpl|done].
      destruct (Urn.convert_user_urn_to_authority_urn caller_urn')
        as [authority_urn'|] eqn:Hauthority; [simpl|done].
      intros _. eexists.
      by apply (standard_bindings_steps _ _ _ _ _ _ caller_urn' slice_urn'
                  project_urn' authority_urn').
    + destruct (GID_get_urn caller) as [caller_urn'|]; [simpl|done].
      by destruct (Urn.convert_user_urn_to_authority_urn caller_urn').
Qed.

(** X9: the two differ in which error comes first.  When the caller cannot
    be decoded and the slice URN cannot be converted either, the binder
    raises the decoder's error and the helper the conversion's. *)
Theorem standard_bindings_error_order
    (method caller : string) (creds : list string)
    (args opts : gmap string string) (agg_mgr : AggregateManager)
    (slice_urn : string) (e_caller e_slice : exn) :
  GID_get_urn caller = Raise e_caller →
  args !! "slice_urn" = Some slice_urn →
  Urn.convert_slice_urn_to_project_urn slice_urn = Raise e_slice →
  standard_bindings method caller creds args opts agg_mgr = Raise e_caller
  ∧ retrieve_context_urns caller args = Raise e_slice.
Proof.
  intros Hcaller Hslice Hproject.
  unfold Standard_Binder.generate_bindings,
    Standard_Binder._retrieve_context_urns.
  rewrite Hcaller, Hslice. simpl. by rewrite Hproject.
Qed.

End standard_extra.

(** ** More on the credential-check binder *)

Section sfa_extra.

Context (METHOD_ATTRIBUTES : gmap string (gmap string (list string))).
Context (verify_from_strings :
  string → list string → option string → list string → gmap string string →
  result (list string)).

Local Abbreviation sfa_bindings :=
  (SFA_Binder.generate_bindings METHOD_ATTRIBUTES verify_from_strings).

Lemma sfa_bindings_steps
    (method caller : string) (creds : list string)
    (args opts : gmap string string) (agg_mgr : AggregateManager)
    (method_attributes : gmap string (list string))
    (privileges : list string) :
  METHOD_ATTRIBUTES !! method = Some method_attributes →
  method_attributes !! "privileges" = Some privileges →
  sfa_bindings method caller creds args opts agg_mgr
  = bindings ←
      try_except_Exception
        (new_creds ← verify_from_strings caller creds (args !! "slice_urn")
                       privileges opts;
         mret (<["$SFA_AUTHORIZED" := "True"]> ∅))
        (λ e, mret ∅);
    mret bindings.
Proof.
  intros Hmethod Hpriv.
  unfold SFA_Binder.generate_bindings, dict_getitem.
  rewrite Hmethod. simpl. rewrite Hpriv. simpl.
  by destruct (args !! "slice_urn").
Qed.

(** X10: an entry of the privilege table without a [privileges] key makes
    the binder raise [KeyError('privileges')], for every verifier: this
    lookup too stands before the [try] block. *)
Theorem sfa_bindings_missing_privileges
    (method caller : string) (creds : list string)
    (args opts : gmap string string) (agg_mgr : AggregateManager)
    (method_attributes : gmap string (list string)) :
  METHOD_ATTRIBUTES !! method = Some method_attributes →
  method_attributes !! "privileges" = None →
  sfa_bindings method caller creds args opts agg_mgr
  = Raise (KeyError "privileges").
Proof.
  intros Hmethod Hpriv.
  unfold SFA_Binder.generate_bindings, dict_getitem.
  rewrite Hmethod. simpl. by rewrite Hpriv.
Qed.

(** X11: what the verifier raises is swallowed only when it is an instance
    of [Exception]; anything else ([KeyboardInterrupt], [SystemExit])
    leaves the binder as it was raised. *)
Theorem sfa_bindings_propagate_non_exception
    (method caller : string) (creds : list string)
    (args opts : gmap string string) (agg_mgr : AggregateManager)
    (method_attributes : gmap string (list string))
    (privileges : list string) (e : exn) :
  METHOD_ATTRIBUTES !! method = Some method_attributes →
  method_attributes !! "privileges" = Some privileges →
  verify_from_strings caller creds (args !! "slice_urn") privileges opts
  = Raise e →
  isinstance_Exception e = false →
  sfa_bindings method caller creds args opts agg_mgr = Raise e.
Proof.
  intros Hmethod Hpriv Hverify Hbase.
  rewrite (sfa_bindings_steps _ _ _ _ _ _ _ _ Hmethod Hpriv).
  rewrite Hverify. simpl. by rewrite Hbase.
Qed.

(** X12: the flag is sound.  In a mapping returned by the binder
    [$SFA_AUTHORIZED] is bound (to ["True"]) exactly when the verifier
    accepted the caller and credentials for the slice URN of the arguments
    and the privileges the table gives for the method; the mapping holds
    nothing else. *)
Theorem sfa_bindings_sound
    (method caller : string) (creds : list string)
    (args opts : gmap string string) (agg_mgr : AggregateManager)
    (bindings : gmap string string) :
  sfa_bindings method caller creds args opts agg_mgr = Ok bindings →
  ∃ method_attributes privileges,
    METHOD_ATTRIBUTES !! method = Some method_attributes
    ∧ method_attributes !! "privileges" = Some privileges
    ∧ (is_Some (bindings !! "$SFA_AUTHORIZED")
       ↔ ∃ new_creds,
           verify_from_strings caller creds (args !! "slice_urn")
             privileges opts = Ok new_creds)
    ∧ (bindings = ∅ ∨ bindings = {[ "$SFA_AUTHORIZED" := "True" ]}).
Proof.
  intros Hok.
  destruct (METHOD_ATTRIBUTES !! method) as [method_attributes|] eqn:Hmethod.
  2: { unfold SFA_Binder.generate_bindings, dict_getitem in Hok.
       by rewrite Hmethod in Hok. }
  destruct (method_attributes !! "privileges") as [privileges|] eqn:Hpriv.
  2: { unfold SFA_Binder.generate_bindings, dict_getitem in Hok.
       rewrite Hmethod in Hok. simpl in Hok. by rewrite Hpriv in Hok. }
  exists method_attributes, privileges. split; [done|]. split; [done|].
  rewrite (sfa_bindings_steps _ _ _ _ _ _ _ _ Hmethod Hpriv) in Hok.
  destruct (verify_from_strings caller creds (args !! "slice_urn")
              privileges opts) as [new_creds|e]; simpl in Hok.
  - injection Hok as <-. split; [|by right].
    split; [by exists new_creds|]. intros _.
    exists "True". apply lookup_insert_eq.
  - destruct (isinstance_Exception e); simpl in Hok; [|done].
    injection Hok as <-. split; [|by left].
    split.
    + intros [v Hv]. by rewrite lookup_empty in Hv.
    + intros [new_creds Hnew]. done.
Qed.

End sfa_extra.

(** ** The printed list determines the list *)

(** Reading back one character printed by [repr_char]. *)
Definition hexval (h : Ascii.ascii) : N :=
  let n := N_of_ascii h in
  if (n <? 58)%N then (n - 48)%N else (n - 87)%N.

Definition unrepr_char (s : string) : option (Ascii.ascii * string) :=
  match s with
  | EmptyString => None
  | String c rest =>
      if bool_decide (c = backslash) then
        match rest with
        | EmptyString => None
        | String d rest' =>
            if bool_decide (d = "x"%char) then
              match rest' with
              | String h1 (String h2 rest'') =>
                  Some (ascii_of_N (hexval h1 * 16 + hexval h2), rest'')
              | _ => None
              end
            else if bool_decide (d = "t"%char) then Some (ascii_of_nat 9, rest')
            else if bool_decide (d = "n"%char) then Some (ascii_of_nat 10, rest')
            else if bool_decide (d = "r"%char) then Some (ascii_of_nat 13, rest')
            else Some (d, rest')
        end
      else Some (c, rest)
  end.

Section repr_facts.

Lemma String_tail_inj (c : Ascii.ascii) (a b : string) :
  String c a = String c b → a = b.
Proof. by intros [= ->]. Qed.

Lemma unrepr_repr_char (quote c : Ascii.ascii) (rest : string) :
  quote = squote ∨ quote = dquote →
  unrepr_char (repr_char quote c +:+ rest) = Some (c, rest).
Proof.
  intros [-> | ->];
    destruct c as [[] [] [] [] [] [] [] []]; reflexivity.
Qed.

Lemma repr_quote_cases (s : string) :
  repr_quote s = squote ∨ repr_quote s = dquote.
Proof. unfold repr_quote. destruct (_ && _); auto. Qed.

Lemma repr_chars_inj_app (quote : Ascii.ascii) (s1 s2 r1 r2 : string) :
  quote = squote ∨ quote = dquote →
  repr_chars quote s1 +:+ String quote r1
  = repr_chars quote s2 +:+ String quote r2 →
  s1 = s2 ∧ r1 = r2.
Proof.
  intros Hquote. revert s2.
  assert (Hstop : ∀ c s r r',
            String quote r ≠ repr_chars quote (String c s) +:+ r').
  { intros c s r r' Heq. simpl in Heq. rewrite app_assoc_string in Heq.
    pose proof (f_equal unrepr_char Heq) as Hread.
    rewrite unrepr_repr_char in Hread by done.
    destruct Hquote as [-> | ->]; simpl in Hread;
      injection Hread as <- _; discriminate Heq. }
  induction s1 as [|c1 s1 IH]; intros [|c2 s2] Heq.
  - by injection Heq as ->.
  - by apply Hstop in Heq.
  - symmetry in Heq. by apply Hstop in Heq.
  - simpl in Heq. rewrite !app_assoc_string in Heq.
    apply (f_equal unrepr_char) in Heq.
    rewrite !unrepr_repr_char in Heq by done.
    injection Heq as -> Heq. by destruct (IH _ Heq) as [-> ->].
Qed.

Lemma repr_quoted_inj_app (s1 s2 r1 r2 : string) :
  repr_quoted s1 +:+ r1 = repr_quoted s2 +:+ r2 → s1 = s2 ∧ r1 = r2.
Proof.
  unfold repr_quoted. rewrite !app_cons, !app_assoc_string, !app_cons.
  intros Heq. injection Heq as Hquote Heq. rewrite <- Hquote in Heq.
  apply (repr_chars_inj_app _ _ _ _ _ (repr_quote_cases s1) Heq).
Qed.

Lemma repr_inj_app (x y : pystring) (r1 r2 : string) :
  repr x +:+ r1 = repr y +:+ r2 → x = y ∧ r1 = r2.
Proof.
  destruct x as [s1|s1], y as [s2|s2]; unfold repr.
  - intros Heq. by destruct (repr_quoted_inj_app _ _ _ _ Heq) as [-> ->].
  - change (String (repr_quote s1)
              ((repr_chars (repr_quote s1) s1
                  +:+ String (repr_quote s1) EmptyString) +:+ r1)
            = String "u" (repr_quoted s2 +:+ r2) → Str s1 = Unicode s2 ∧ r1 = r2).
    by destruct (repr_quote_cases s1) as [-> | ->].
  - change (String "u" (repr_quoted s1 +:+ r1)
            = String (repr_quote s2)
                ((repr_chars (repr_quote s2) s2
                    +:+ String (repr_quote s2) EmptyString) +:+ r2)
            → Unicode s1 = Str s2 ∧ r1 = r2).
    by destruct (repr_quote_cases s2) as [-> | ->].
  - change (String "u" (repr_quoted s1 +:+ r1)
            = String "u" (repr_quoted s2 +:+ r2)
            → Unicode s1 = Unicode s2 ∧ r1 = r2).
    intros Heq. apply String_tail_inj in Heq.
    by destruct (repr_quoted_inj_app _ _ _ _ Heq) as [-> ->].
Qed.

Lemma repr_first_char (x : pystring) (r : string) : repr x +:+ r ≠ "]" .
Proof.
  destruct x as [s|s]; unfold repr.
  - change (String (repr_quote s)
              ((repr_chars (repr_quote s) s
                  +:+ String (repr_quote s) EmptyString) +:+ r) ≠ "]").
    by destruct (repr_quote_cases s) as [-> | ->].
  - change (String "u" (repr_quoted s +:+ r) ≠ "]"). done.
Qed.

(** The part of [str_list] after the opening bracket. *)
Definition list_tail (l : list pystring) : string :=
  join ", " (map repr l) +:+ "]".

Lemma list_tail_cons (x : pystring) (l : list pystring) :
  list_tail (x :: l)
  = repr x +:+ match l with
               | [] => "]"
               | _ :: _ => ", " +:+ list_tail l
               end.
Proof.
  unfold list_tail. destruct l as [|y l]; [reflexivity|].
  change (join ", " (map repr (x :: y :: l)))
    with (repr x +:+ ", " +:+ join ", " (map repr (y :: l))).
  by rewrite !app_assoc_string.
Qed.

Lemma list_tail_inj (l1 l2 : list pystring) :
  list_tail l1 = list_tail l2 → l1 = l2.
Proof.
  revert l2. induction l1 as [|x l1 IH]; intros [|y l2].
  - done.
  - rewrite list_tail_cons. intros Heq. symmetry in Heq.
    by apply repr_first_char in Heq.
  - rewrite list_tail_cons. intros Heq. by apply repr_first_char in Heq.
  - rewrite !list_tail_cons. intros Heq.
    apply repr_inj_app in Heq as [-> Heq]. f_equal.
    destruct l1 as [|x1 l1], l2 as [|y1 l2]; try done.
    apply IH. by injection Heq.
Qed.

(** X15: [str] of a list of strings loses nothing: two lists printed alike
    are the same list, element by element (characters and string type),
    in the same order and with the same repetitions. *)
Theorem str_list_inj (l1 l2 : list pystring) :
  str_list l1 = str_list l2 → l1 = l2.
Proof.
  unfold str_list. intros Heq. apply list_tail_inj.
  unfold list_tail. by injection Heq.
Qed.

End repr_facts.

(** ** More on the stitching binder *)

Section stitching_extra.

Import StitchingSpec.

Context (CREATE_SLIVER_V2 ALLOCATE_V3 : string).
Context (parseString : string → result Document).

Local Abbreviation stitching_bindings :=
  (Stitching_Binder.generate_bindings CREATE_SLIVER_V2 ALLOCATE_V3 parseString).

(** X13: a request with a [stitching] element in which no direct child
    link names the aggregate is not answered by the empty mapping:
    [$REQUESTED_STITCH_POINTS] is bound, to the printed empty list. *)
Theorem stitching_bindings_nothing_selected
    (method caller : string) (creds : list string)
    (args opts : gmap string string) (agg_mgr : AggregateManager)
    (rspec_raw : string) (rspec_doc : Document) (rspec_elt stitching_elt : Node) :
  method ∈ [CREATE_SLIVER_V2; ALLOCATE_V3] →
  args !! "rspec" = Some rspec_raw →
  parseString rspec_raw = Ok rspec_doc →
  Document_getElementsByTagName rspec_doc "rspec" !! 0 = Some rspec_elt →
  getElementsByTagName rspec_elt "stitching" !! 0 = Some stitching_elt →
  (∀ link_elt component_manager,
     link_elt ∈ childNodes rspec_elt →
     nodeType link_elt = ELEMENT_NODE → tagName link_elt = "link" →
     component_manager ∈ getElementsByTagName link_elt "component_manager" →
     py_eq (getAttribute component_manager "name") (_my_urn (_delegate agg_mgr))
     = false) →
  stitching_bindings method caller creds args opts agg_mgr
  = Ok {[ "$REQUESTED_STITCH_POINTS" := "[]" ]}.
Proof.
  intros Hmethod Hargs Hparse Hrspec Hstitching Hnone.
  rewrite (stitching_bindings_found _ _ _ _ _ _ _ _ _ rspec_raw rspec_doc
             rspec_elt stitching_elt) by done.
  assert (Hlinks : selected_links (_my_urn (_delegate agg_mgr)) rspec_elt = []).
  { apply elem_of_nil_inv. intros link_elt Hin.
    apply selected_links_iff in Hin
      as (Hchild & Htype & Htag & cm & Hcm & Hname).
    by rewrite (Hnone link_elt cm) in Hname. }
  unfold requested_stitch_points, selected_paths, myLinkIds.
  rewrite Hlinks. simpl.
  assert (Hpaths : ∀ paths : list Node,
            filter (λ path : Node,
                      list_contains (getAttribute path "id") [] = true) paths
            = []).
  { intros paths. induction paths as [|p ps IH]; [done|].
    by rewrite filter_cons_False. }
  by rewrite Hpaths.
Qed.

(** X14: the outcomes of the binder.  It returns the empty mapping or a
    mapping with the single key [$REQUESTED_STITCH_POINTS] bound to a
    printed list, or it raises the error of the parser on the [rspec]
    argument, or [IndexError] for a parsed document without any [rspec]
    element; nothing else. *)
Theorem stitching_bindings_outcomes
    (method caller : string) (creds : list string)
    (args opts : gmap string string) (agg_mgr : AggregateManager) :
  stitching_bindings method caller creds args opts agg_mgr = Ok ∅
  ∨ (∃ requested_stitch_points,
       stitching_bindings method caller creds args opts agg_mgr
       = Ok {[ "$REQUESTED_STITCH_POINTS" :=
               str_list requested_stitch_points ]})
  ∨ (∃ rspec_raw e,
       args !! "rspec" = Some rspec_raw
       ∧ parseString rspec_raw = Raise e
       ∧ stitching_bindings method caller creds args opts agg_mgr = Raise e)
  ∨ (∃ rspec_raw rspec_doc,
       args !! "rspec" = Some rspec_raw
       ∧ parseString rspec_raw = Ok rspec_doc
       ∧ Document_getElementsByTagName rspec_doc "rspec" = []
       ∧ stitching_bindings method caller creds args opts agg_mgr
         = Raise IndexError).
Proof.
  unfold Stitching_Binder.generate_bindings, dict_getitem, list_getitem.
  case_bool_decide; [|by left].
  destruct (args !! "rspec") as [rspec_raw|] eqn:Hargs; [|by left].
  rewrite bool_decide_false by done. simpl.
  destruct (parseString rspec_raw) as [rspec_doc|e] eqn:Hparse; simpl.
  2: { right. right. left. by exists rspec_raw, e. }
  destruct (Document_getElementsByTagName rspec_doc "rspec")
    as [|rspec_elt others] eqn:Hrspec; simpl.
  { right. right. right. by exists rspec_raw, rspec_doc. }
  destruct (getElementsByTagName rspec_elt "stitching")
    as [|stitching_elt more]; simpl; [by left|].
  right. left. by eexists.
Qed.

End stitching_extra.

(** ** The further properties on sample requests *)

Module MoreSamples.

Import Samples.

Definition caller_urn : string := "urn:publicid:IDN+example.org+user+bob".
Definition slice_urn : string :=
  "urn:publicid:IDN+example.org:myproj+slice+myslice".

Definition slice_args : gmap string string := {[ "slice_urn" := slice_urn ]}.

Definition bad_slice_args : gmap string string :=
  {[ "slice_urn" := "myslice" ]}.

Definition slice_bindings : gmap string string :=
  standard_mapping noon "ListResources" caller_urn slice_urn
    "urn:publicid:IDN+example.org+project+myproj"
    "urn:publicid:IDN+example.org+authority+ca".

(** A decoder that rejects every caller, a verifier that is interrupted,
    and a table with an entry that has no privileges. *)
Definition gid_rejects (caller : string) : result string :=
  Raise (Exception "GIDError").

Definition verify_interrupted (caller : string) (creds : list string)
    (slice_urn : option string) (privileges : list string)
    (opts : gmap string string) : result (list string) :=
  Raise (BaseException "KeyboardInterrupt").

Definition bare_attributes : gmap string (gmap string (list string)) :=
  {[ "GetVersion" := ∅ ]}.

(** A request whose only link names another aggregate. *)
Definition foreign_text : string :=
  "<rspec><link client_id='link0'><component_manager name='urn:publicid:IDN+example.net+authority+am'/></link><stitching><path id='link0'><hop><link id='A'/></hop></path></stitching></rspec>".

Definition foreign_stitching : Node :=
  Element "stitching" ∅
    [Element "path" {[ "id" := "link0" ]} [hop_with_link "A"]].

Definition foreign_rspec : Node :=
  Element "rspec" ∅
    [Element "link" {[ "client_id" := "link0" ]}
       [Element "component_manager" {[ "name" := other_urn ]} []];
     foreign_stitching].

Definition foreign_doc : Document := mkDocument [foreign_rspec].

Definition foreign_args : gmap string string := {[ "rspec" := foreign_text ]}.

Definition parse_foreign (rspec_raw : string) : result Document :=
  if bool_decide (rspec_raw = foreign_text) then Ok foreign_doc
  else Raise (Exception "ExpatError").

End MoreSamples.

Section more_sample_facts.

Import StitchingSpec Samples MoreSamples.

Lemma standard_bindings_complete_witness :
  dom slice_bindings
  = {[ "$METHOD"; "$CALLER"; "$SLICE_URN"; "$PROJECT_URN";
       "$CALLER_AUTHORITY"; "$HOUR"; "$MONTH"; "$YEAR"; "$DAY_OF_WEEK" ]}
  ∧ slice_bindings !! "$METHOD" = Some "ListResources"
  ∧ slice_bindings !! "$SLICE_URN" = slice_args !! "slice_urn"
  ∧ (∃ caller_urn', gid_verbatim caller_urn = Ok caller_urn'
                    ∧ slice_bindings !! "$CALLER" = Some caller_urn')
  ∧ slice_bindings !! "$HOUR" = Some (str_int (tm_hour noon))
  ∧ slice_bindings !! "$MONTH" = Some (str_int (tm_mon noon))
  ∧ slice_bindings !! "$YEAR" = Some (str_int (tm_year noon))
  ∧ slice_bindings !! "$DAY_OF_WEEK" = Some (str_int (tm_wday noon)).
Proof.
  apply (standard_bindings_complete gid_verbatim noon "ListResources"
           caller_urn ["cred"] slice_args ∅ agg_mgr slice_bindings).
  vm_compute. reflexivity.
Defined.

Lemma standard_bindings_wellformed_request_witness :
  ∃ bindings,
    Standard_Binder.generate_bindings gid_verbatim noon "ListResources"
      caller_urn ["cred"] slice_args ∅ agg_mgr = Ok bindings
    ∧ bindings !! "$PROJECT_URN"
      = Some ("urn:publicid:IDN+" +:+ "example.org" +:+ "+project+"
                +:+ "myproj")
    ∧ bindings !! "$CALLER_AUTHORITY"
      = Some ("urn:publicid:IDN+" +:+ "example.org" +:+ "+authority+ca").
Proof.
  apply (standard_bindings_wellformed_request gid_verbatim noon
           "ListResources" caller_urn ["cred"] slice_args ∅ agg_mgr
           "example.org" "bob" "example.org" "myproj" "myslice");
    reflexivity.
Defined.

Lemma standard_bindings_error_order_witness :
  Standard_Binder.generate_bindings gid_rejects noon "ListResources"
    caller_urn ["cred"] bad_slice_args ∅ agg_mgr
  = Raise (Exception "GIDError")
  ∧ Standard_Binder._retrieve_context_urns gid_rejects caller_urn
      bad_slice_args
    = Raise IndexError.
Proof.
  apply (standard_bindings_error_order gid_rejects noon "ListResources"
           caller_urn ["cred"] bad_slice_args ∅ agg_mgr "myslice");
    reflexivity.
Defined.

Lemma sfa_bindings_missing_privileges_witness :
  SFA_Binder.generate_bindings bare_attributes verify_always
    "GetVersion" "caller" ["cred"] ∅ ∅ agg_mgr
  = Raise (KeyError "privileges").
Proof.
  apply (sfa_bindings_missing_privileges bare_attributes verify_always
           "GetVersion" "caller" ["cred"] ∅ ∅ agg_mgr ∅); reflexivity.
Defined.

Lemma sfa_bindings_propagate_non_exception_witness :
  SFA_Binder.generate_bindings method_attributes verify_interrupted
    "ListResources" "caller" ["cred"] ∅ ∅ agg_mgr
  = Raise (BaseException "KeyboardInterrupt").
Proof.
  apply (sfa_bindings_propagate_non_exception method_attributes
           verify_interrupted "ListResources" "caller" ["cred"] ∅ ∅ agg_mgr
           {[ "privileges" := ["info"] ]} ["info"]); reflexivity.
Defined.

Lemma sfa_bindings_sound_witness :
  ∃ attributes privileges,
    method_attributes !! "ListResources" = Some attributes
    ∧ attributes !! "privileges" = Some privileges
    ∧ (is_Some (({[ "$SFA_AUTHORIZED" := "True" ]} : gmap string string)
                  !! "$SFA_AUTHORIZED")
       ↔ ∃ new_creds,
           verify_always "caller" ["cred"]
             ((∅ : gmap string string) !! "slice_urn") privileges ∅
           = Ok new_creds)
    ∧ (({[ "$SFA_AUTHORIZED" := "True" ]} : gmap string string) = ∅
       ∨ ({[ "$SFA_AUTHORIZED" := "True" ]} : gmap string string)
         = {[ "$SFA_AUTHORIZED" := "True" ]}).
Proof.
  apply (sfa_bindings_sound method_attributes verify_always
           "ListResources" "caller" ["cred"] ∅ ∅ agg_mgr).
  vm_compute. reflexivity.
Defined.

Lemma stitching_bindings_nothing_selected_witness :
  Stitching_Binder.generate_bindings "CreateSliverV2" "AllocateV3"
    parse_foreign "CreateSliverV2" "caller" ["cred"] foreign_args ∅ agg_mgr
  = Ok {[ "$REQUESTED_STITCH_POINTS" := "[]" ]}.
Proof.
  apply (stitching_bindings_nothing_selected "CreateSliverV2" "AllocateV3"
           parse_foreign "CreateSliverV2" "caller" ["cred"] foreign_args ∅
           agg_mgr foreign_text foreign_doc foreign_rspec foreign_stitching);
    try reflexivity.
  - by left.
  - intros link_elt component_manager Hlink Htype Htag Hcm.
    change (link_elt
              ∈ [Element "link" {[ "client_id" := "link0" ]}
                   [Element "component_manager" {[ "name" := other_urn ]} []];
                 foreign_stitching]) in Hlink.
    apply elem_of_cons in Hlink as [-> | Hlink].
    + apply list_elem_of_singleton in Hcm as ->. reflexivity.
    + apply list_elem_of_singleton in Hlink as ->. discriminate Htag.
Defined.

Lemma str_list_inj_witness :
  [Unicode "L1"; Unicode "L2"] = [Unicode "L1"; Unicode "L2"].
Proof.
  apply (str_list_inj [Unicode "L1"; Unicode "L2"]
           [Unicode "L1"; Unicode "L2"]).
  reflexivity.
Defined.

End more_sample_facts.

(** * The clearinghouse call handler of [omnilib/chhandler.py]

    The handler logs through [self.logger], writes files, prints and
    raises [OmniError]; all of it is kept: a computation takes the effects
    so far (records logged, files written, lines printed) and returns a
    value or an error together with the effects since.  The framework,
    [_do_ssl], [_listaggregates] and the other helpers imported by the
    module are collaborators and stand as section variables. *)

Module CH.

Inductive level : Type := DEBUG | INFO | WARNING | ERROR.

Definition record : Type := (level * string)%type.

(** What a call does besides returning: [self.logger] records, the files
    written ([open(filename, 'w')] followed by [write]) and the lines
    printed. *)
Inductive effect : Type :=
| Logged (r : record)
| Wrote (filename content : string)
| Printed (text : string).

(** [OmniError(msg)], or whatever a collaborator raised. *)
Inductive error : Type :=
| OmniError (msg : string)
| Raised (e : exn).

Definition M (A : Type) : Type := list effect → (A + error) * list effect.

#[export] Instance M_ret : MRet M := λ A a log, (inl a, log).
#[export] Instance M_bind : MBind M := λ A B f m log,
  match m log with
  | (inl a, log') => f a log'
  | (inr e, log') => (inr e, log')
  end.

Definition raise {A} (e : error) : M A := λ log, (inr e, log).

Definition logger (lvl : level) (msg : string) : M unit :=
  λ log, (inl tt, log ++ [Logged (lvl, msg)]).

(** [l[0]] on the argument list. *)
Definition first_arg (args : list string) : M string :=
  match args with
  | [] => raise (Raised IndexError)
  | a :: _ => mret a
  end.

(** [str.lower], [str.startswith] for one character and [str.strip] of
    byte strings (in the C locale). *)
Definition lower_char (c : Ascii.ascii) : Ascii.ascii :=
  let n := N_of_ascii c in
  if (65 <=? n)%N && (n <=? 90)%N then ascii_of_N (n + 32) else c.

Fixpoint lower (s : string) : string :=
  match s with
  | EmptyString => EmptyString
  | String c s' => String (lower_char c) (lower s')
  end.

Definition startswith (c : Ascii.ascii) (s : string) : bool :=
  match s with
  | EmptyString => false
  | String c' _ => bool_decide (c' = c)
  end.

Definition isspace (c : Ascii.ascii) : bool :=
  let n := N_of_ascii c in
  (n =? 32)%N || ((9 <=? n)%N && (n <=? 13)%N).

Fixpoint lstrip (s : string) : string :=
  match s with
  | EmptyString => EmptyString
  | String c s' => if isspace c then lstrip s' else s
  end.

Fixpoint rstrip (s : string) : string :=
  match s with
  | EmptyString => EmptyString
  | String c s' =>
      match rstrip s' with
      | EmptyString => if isspace c then EmptyString else String c EmptyString
      | rest => String c rest
      end
  end.

Definition strip (s : string) : string := rstrip (lstrip s).

(** What [_do_ssl] hands back as a result besides a list: [None], [False],
    [True], or another object, of which only [repr] is used. *)
Inductive pyobj : Type :=
| PyNone
| PyFalse
| PyTrue
| PyObject (repr : string).

#[export] Instance pyobj_eq_dec : EqDecision pyobj.
Proof. solve_decision. Defined.

Definition repr_obj (o : pyobj) : string :=
  match o with
  | PyNone => "None"
  | PyFalse => "False"
  | PyTrue => "True"
  | PyObject r => r
  end.

Definition nl : string := String (ascii_of_nat 10) EmptyString.
Definition tab : string := String (ascii_of_nat 9) EmptyString.

(** The options read by the handler; [None] and the empty string are both
    false where an option is used as a condition. *)
Record options : Type := mkOptions
  { output : bool;
    slicecredfile : option string;
    prefix : option string;
    tostdout : bool;
    framework : string }.

Definition truthy (o : option string) : bool :=
  match o with
  | Some s => bool_decide (s ≠ EmptyString)
  | None => false
  end.

Definition write_file (filename content : string) : M unit :=
  λ log, (inl tt, log ++ [Wrote filename content]).

Definition print (text : string) : M unit :=
  λ log, (inl tt, log ++ [Printed text]).

(** [try: body  except: handler], which catches whatever is raised. *)
Definition try_except {A} (body handler : M A) : M A :=
  λ log,
    match body log with
    | (inl a, log') => (inl a, log')
    | (inr _, log') => handler log'
    end.

Section CHCallHandler.

(** [_raise_omni_error(msg, err=OmniError)]. *)
Definition _raise_omni_error {A} (msg : string) (err : string → error) : M A :=
  _ ← logger ERROR msg;
  raise (err msg).

(** [_handle]: the attributes of the handler are given by what calling
    them on an argument list does; [None] is the value of the bare
    [return]. *)
Context {V : Type}.
Variable attributes : gmap string (list string → M V).

Definition _handle (args : list string) : M (option V) :=
  _ ← (if bool_decide (length args = 0)
       then _raise_omni_error
              "Insufficient number of arguments - Missing command to run"
              OmniError
       else mret tt);
  arg0 ← first_arg args;
  let call := lower arg0 in
  if startswith "_" call then mret None else
  _ ← (if bool_decide (attributes !! call = None)
       then _raise_omni_error ("Unknown function: " +:+ call) OmniError
       else mret tt);
  match attributes !! call with
  | Some method => v ← method (drop 1 args); mret (Some v)
  | None => raise (Raised (Exception "AttributeError"))
  end.

(** The framework's [slice_name_to_urn], and [_do_ssl] applied to the
    framework's [delete_slice], [list_my_slices] and [list_my_ssh_keys]
    with the reason given; [_listaggregates]. *)
Variable slice_name_to_urn : string → M string.
Variable do_ssl_delete_slice : string → string → M (pyobj * string).
Variable do_ssl_list_my_slices :
  string → string → M (option (list string) * string).
Variable do_ssl_list_my_ssh_keys : string → M (option (list string) * string).
Variable _listaggregates : M (gmap string string * string).

(** [len(args) == 0 or args[0] == None or args[0].strip() == ""]; an
    argument is a string, never [None]. *)
Definition no_name (args : list string) : bool :=
  match args with
  | [] => true
  | name :: _ => bool_decide (strip name = EmptyString)
  end.

Definition deleteslice (args : list string) : M (string * bool) :=
  _ ← (if no_name args
       then _raise_omni_error "deleteslice requires arg of slice name"
              OmniError
       else mret tt);
  name ← first_arg args;
  urn ← slice_name_to_urn name;
  '(res, message) ← do_ssl_delete_slice ("Delete Slice " +:+ urn) urn;
  let retVal :=
    match res with
    | PyNone | PyFalse => false
    | _ => true
    end in
  let prtStr := "Delete Slice " +:+ name +:+ " result: " +:+ repr_obj res in
  let prtStr :=
    match res with
    | PyNone =>
        if bool_decide (message ≠ EmptyString)
        then prtStr +:+ ". " +:+ message else prtStr
    | _ => prtStr
    end in
  _ ← logger INFO prtStr;
  mret (prtStr, retVal).


Definition listmykeys (args : list string) : M (string * list string) :=
  let retStr := EmptyString in
  '(keys, message) ← do_ssl_list_my_ssh_keys "List Keys from Slice Authority";
  '(keys, retStr) ←
    match keys with
    | None =>
        let keys : list string := [] in
        _ ← logger ERROR "Failed to list keys for you";
        mret (keys, retStr +:+ "Server error: " +:+ message +:+ ". ")
    | Some keys =>
        _ ← (if bool_decide (0 < length keys)
             then logger INFO
                    ("User has key(s): " +:+ nl +:+ tab
                       +:+ join (nl +:+ tab) keys)
             else logger INFO "User has NO keys.");
        mret (keys, retStr)
    end;
  let retStr :=
    retStr +:+ "Found " +:+ pretty (length keys) +:+ " key(s) for user."
      +:+ nl in
  mret (retStr, keys).

(** The loop of [listaggregates] over [aggs.items()]: the counter, the
    dictionary built and the records logged. *)
Definition for_aggregate (aggList : list (string * string))
  : M (nat * gmap string string) :=
  foldl (λ (acc : M (nat * gmap string string)) '(urn, url),
           '(aggCnt, retVal) ← acc;
           let aggCnt := aggCnt + 1 in
           _ ← logger INFO
                 ("  Aggregate " +:+ pretty aggCnt +:+ ":" +:+ nl +:+ " " +:+ tab
                    +:+ urn +:+ " " +:+ nl +:+ " " +:+ tab +:+ url);
           mret (aggCnt, <[urn := url]> retVal))
        (mret (0, ∅)) aggList.

Definition listaggregates (args : list string)
  : M (string * gmap string string) :=
  let retStr := EmptyString in
  '(aggs, message) ← _listaggregates;
  let aggList := map_to_list aggs in
  _ ← logger INFO ("Listing " +:+ pretty (length aggList) +:+ " aggregates...");
  '(aggCnt, retVal) ← for_aggregate aggList;
  retStr ←
    (if bool_decide (aggs = ∅) && bool_decide (message ≠ EmptyString)
     then mret (retStr +:+ "No aggregates found: " +:+ message)
     else if bool_decide (length aggList = 0)
     then mret "No aggregates found."
     else if bool_decide (length aggList = 1) then
       match map_to_list retVal with
       | (urn, url) :: _ =>
           mret ("Found 1 aggregate. URN: " +:+ urn +:+ "; URL: " +:+ url)
       | [] => raise (Raised IndexError)
       end
     else mret ("Found " +:+ pretty (length aggList) +:+ " aggregates."));
  mret (retStr, retVal).

(** [self.opts]; [_do_ssl] applied to the framework's [create_slice] and
    [renew_slice]; the framework's [get_user_cred]; [credutils.get_cred_exp],
    [_get_slice_cred] and [_print_slice_expiration], whose results are taken
    in the form [%s] prints them; [dateutil.parser.parse];
    [self.logger.isEnabledFor]. *)
Variable opts : options.
Variable do_ssl_create_slice : string → string → M (option string * string).
Variable do_ssl_renew_slice :
  string → string → string → M (option string * string).
Variable get_user_cred : M (option string * string).
Variable get_cred_exp : string → M string.
Variable _get_slice_cred : string → M (option string * string).
Variable _print_slice_expiration : string → option string → M string.
Variable dateutil_parse : string → M string.
Variable isEnabledFor : level → M bool.

Definition _maybe_save_slicecred (name slicecred : option string)
  : M (option string) :=
  match name, slicecred with
  | Some name, Some slicecred =>
      if bool_decide (strip name = EmptyString) then mret None else
      let filename : option string := None in
      if output opts then
        let filename :=
          if truthy (slicecredfile opts)
          then default EmptyString (slicecredfile opts)
          else
            let filename := name +:+ "-cred.xml" in
            if truthy (prefix opts)
               && bool_decide (strip (default EmptyString (prefix opts))
                               ≠ EmptyString)
            then strip (default EmptyString (prefix opts)) +:+ "-" +:+ filename
            else filename in
        _ ← write_file filename (slicecred +:+ nl);
        mret (Some filename)
      else if tostdout opts then
        _ ← logger INFO
              ("Writing slice " +:+ name +:+ " cred to STDOUT per options");
        _ ← print slicecred;
        mret filename
      else mret filename
  | _, _ => mret None
  end.

Definition createslice (args : list string) : M (string * option string) :=
  let retVal := EmptyString in
  _ ← (if no_name args
       then _raise_omni_error "createslice requires arg of slice name"
              OmniError
       else mret tt);
  name ← first_arg args;
  urn ← slice_name_to_urn name;
  '(slice_cred, message) ← do_ssl_create_slice ("Create Slice " +:+ urn) urn;
  if truthy slice_cred then
    slice_exp ← get_cred_exp (default EmptyString slice_cred);
    let printStr :=
      "Created slice with Name " +:+ name +:+ ", URN " +:+ urn
        +:+ ", Expiration " +:+ slice_exp in
    let retVal := retVal +:+ printStr +:+ nl in
    _ ← logger INFO printStr;
    filename ← _maybe_save_slicecred (Some name) slice_cred;
    retVal ←
      match filename with
      | Some filename =>
          let prstr :=
            "Wrote slice " +:+ name +:+ " credential to file '"
              +:+ filename +:+ "'" in
          _ ← logger INFO prstr;
          mret (retVal +:+ prstr +:+ nl)
      | None => mret retVal
      end;
    let success := Some urn in
    mret (retVal, success)
  else
    let printStr := "Create Slice Failed for slice name " +:+ name +:+ "." in
    let printStr :=
      if bool_decide (message ≠ EmptyString)
      then printStr +:+ " " +:+ message else printStr in
    let retVal := retVal +:+ printStr +:+ nl in
    _ ← logger ERROR printStr;
    let success : option string := None in
    (* [logging] is not a name of the module *)
    debug ← raise (Raised (Exception "NameError"));
    enabled ← isEnabledFor debug;
    _ ← (if negb enabled
         then logger WARNING
                "   Try re-running with --debug for more information."
         else mret tt);
    mret (retVal, success).

Definition renewslice (args : list string) : M (string * option string) :=
  _ ← (if bool_decide (length args ≠ 2) || no_name args
       then _raise_omni_error
              "renewslice missing args: Supply <slice name> <expiration date>"
              OmniError
       else mret tt);
  name ← first_arg args;
  expire_str ← first_arg (drop 1 args);
  urn ← slice_name_to_urn name;
  in_expiration ←
    try_except (dateutil_parse expire_str)
      (let msg :=
         "Unable to parse date " +:+ String dquote expire_str
           +:+ String dquote ("." +:+ nl +:+ "Try "
           +:+ String dquote ("YYYYMMDDTHH:MM:SSZ"
           +:+ String dquote " format")) in
       _raise_omni_error msg OmniError);
  '(out_expiration, message) ←
    do_ssl_renew_slice ("Renew Slice " +:+ urn) urn in_expiration;
  '(retVal, retTime) ←
    (if truthy out_expiration then
       let prtStr :=
         "Slice " +:+ name +:+ " now expires at "
           +:+ default EmptyString out_expiration +:+ " UTC" in
       _ ← logger INFO prtStr;
       mret (prtStr +:+ nl, out_expiration)
     else
       let prtStr := "Failed to renew slice " +:+ name in
       let prtStr :=
         if bool_decide (message ≠ EmptyString)
         then prtStr +:+ ". " +:+ message else prtStr in
       _ ← logger WARNING prtStr;
       mret (prtStr +:+ nl, None));
  expiration ← _print_slice_expiration urn None;
  let retVal := retVal +:+ expiration in
  mret (retVal, retTime).

Definition getusercred (args : list string) : M (string * string) :=
  '(cred, message) ← get_user_cred;
  cred ←
    match cred with
    | None =>
        _raise_omni_error
          ("Got no user credential from framework: " +:+ message) OmniError
    | Some cred => mret cred
    end;
  let fname := framework opts +:+ "-usercred.xml" in
  _ ← logger INFO ("Writing your user credential to " +:+ fname);
  _ ← write_file fname cred;
  _ ← logger INFO ("User credential:" +:+ nl +:+ repr (Str cred));
  mret ("Saved user credential to " +:+ fname, cred).

Definition getslicecred (args : list string) : M (string * option string) :=
  _ ← (if no_name args
       then _raise_omni_error "getslicecred requires arg of slice name"
              OmniError
       else mret tt);
  name ← first_arg args;
  urn ← slice_name_to_urn name;
  '(cred, message) ← _get_slice_cred urn;
  match cred with
  | None =>
      let retVal :=
        "No slice credential returned for slice " +:+ urn +:+ ": "
          +:+ message in
      mret (retVal, None)
  | Some cred =>
      _ ← _print_slice_expiration urn (Some cred);
      _ ← logger INFO ("Retrieved slice cred for slice " +:+ urn);
      let retVal := cred in
      let retItem := cred in
      filename ← _maybe_save_slicecred (Some name) (Some cred);
      retVal ←
        match filename with
        | Some filename =>
            _ ← logger INFO
                  ("Wrote slice " +:+ name +:+ " credential to file '"
                     +:+ filename +:+ "'");
            mret ("Saved slice " +:+ name +:+ " cred to file " +:+ filename)
        | None => mret retVal
        end;
      mret (retVal, Some retItem)
  end.

Definition print_slice_expiration (args : list string)
  : M (string * option string) :=
  _ ← (if no_name args
       then _raise_omni_error
              "print_slice_expiration requires arg of slice name" OmniError
       else mret tt);
  name ← first_arg args;
  urn ← slice_name_to_urn name;
  '(cred, message) ← _get_slice_cred urn;
  match cred with
  | None =>
      let retVal :=
        "No slice credential returned for slice " +:+ urn +:+ ": "
          +:+ message in
      mret (retVal, None)
  | Some cred =>
      retVal ← _print_slice_expiration urn (Some cred);
      mret (retVal, Some retVal)
  end.

End CHCallHandler.

End CH.

(** ** Properties of the call handler *)

Section ch_strings.

Import CH.

Lemma lower_char_idem (c : Ascii.ascii) :
  lower_char (lower_char c) = lower_char c.
Proof. destruct c as [[] [] [] [] [] [] [] []]; reflexivity. Qed.

Lemma lower_idem (s : string) : lower (lower s) = lower s.
Proof.
  induction s as [|c s IH]; [reflexivity|].
  simpl. by rewrite lower_char_idem, IH.
Qed.

Lemma startswith_underscore_lower (s : string) :
  startswith "_" (lower s) = startswith "_" s.
Proof.
  destruct s as [|c s]; [reflexivity|].
  destruct c as [[] [] [] [] [] [] [] []]; reflexivity.
Qed.

(** A string of white space only. *)
Fixpoint blank (s : string) : bool :=
  match s with
  | EmptyString => true
  | String c s' => isspace c && blank s'
  end.

Lemma lstrip_cases (s : string) :
  (blank s = true ∧ lstrip s = EmptyString)
  ∨ (blank s = false
     ∧ ∃ c s', lstrip s = String c s' ∧ isspace c = false).
Proof.
  induction s as [|c s IH]; simpl; [by left|].
  destruct (isspace c) eqn:Hc; simpl; [done|].
  right. split; [done|]. by exists c, s.
Qed.

Lemma rstrip_keeps_first (c : Ascii.ascii) (s : string) :
  isspace c = false → rstrip (String c s) ≠ EmptyString.
Proof.
  intros Hc. simpl. destruct (rstrip s); [by rewrite Hc | done].
Qed.

Lemma strip_empty_iff (s : string) :
  strip s = EmptyString ↔ blank s = true.
Proof.
  unfold strip.
  destruct (lstrip_cases s) as [[Hb ->] | [Hb (c & s' & -> & Hc)]].
  - done.
  - rewrite Hb. split; [|done].
    intros Hempty. by apply rstrip_keeps_first in Hempty.
Qed.

Lemma no_name_iff (args : list string) :
  no_name args = true
  ↔ args = [] ∨ ∃ name rest, args = name :: rest ∧ blank name = true.
Proof.
  destruct args as [|name rest]; simpl.
  - split; [by left | done].
  - rewrite bool_decide_eq_true, strip_empty_iff. split.
    + intros Hb. right. by exists name, rest.
    + by intros [? | (? & ? & [= <- <-] & ?)].
Qed.

End ch_strings.

Section ch_handle_facts.

Import CH.

Context {V : Type} (attributes : gmap string (list string → M V)).

(** X16: a command whose name starts with an underscore is never
    dispatched: [_handle] returns [None] and logs nothing, whether or not
    the handler has an attribute of that name. *)
Theorem handle_skips_private (name : string) (rest : list string)
    (log : list effect) :
  startswith "_" name = true →
  _handle attributes (name :: rest) log = (inl None, log).
Proof.
  intros Hprivate. unfold _handle. simpl.
  unfold mbind, M_bind, mret, M_ret. simpl.
  by rewrite startswith_underscore_lower, Hprivate.
Qed.

(** X17: commands are case-insensitive and dispatched in lower case:
    [_handle] on a command equals [_handle] on its lower-case form, and a
    public command whose lower-case form is an attribute of the handler is
    that attribute called on the remaining arguments. *)
Theorem handle_dispatches_lower_case (name : string) (rest : list string)
    (log : list effect) :
  _handle attributes (name :: rest) log
  = _handle attributes (lower name :: rest) log
  ∧ (∀ method,
       startswith "_" name = false →
       attributes !! lower name = Some method →
       _handle attributes (name :: rest) log
       = (v ← method rest; mret (Some v)) log).
Proof.
  split.
  - unfold _handle. simpl. unfold mbind, M_bind, mret, M_ret. simpl.
    by rewrite lower_idem.
  - intros method Hpublic Hmethod. unfold _handle. simpl.
    unfold mbind, M_bind, mret, M_ret. simpl.
    rewrite startswith_underscore_lower, Hpublic, Hmethod.
    by rewrite bool_decide_false.
Qed.

(** X18: without a command, and for a public command that is no attribute
    of the handler, [_handle] logs the message at level [ERROR] and raises
    [OmniError] with it; the message of an unknown command names it in
    lower case. *)
Theorem handle_errors (name : string) (rest : list string)
    (log : list effect) :
  _handle attributes [] log
  = (inr (OmniError
            "Insufficient number of arguments - Missing command to run"),
     log ++ [Logged (ERROR,
              "Insufficient number of arguments - Missing command to run")])
  ∧ (startswith "_" name = false →
     attributes !! lower name = None →
     _handle attributes (name :: rest) log
     = (inr (OmniError ("Unknown function: " +:+ lower name)),
        log ++ [Logged (ERROR, "Unknown function: " +:+ lower name)])).
Proof.
  split; [reflexivity|].
  intros Hpublic Hunknown. unfold _handle. simpl.
  unfold mbind, M_bind, mret, M_ret. simpl.
  rewrite startswith_underscore_lower, Hpublic, Hunknown.
  by rewrite bool_decide_true.
Qed.

End ch_handle_facts.

Section ch_command_facts.

Import CH.

Context (slice_name_to_urn : string → M string).
Context (do_ssl_delete_slice : string → string → M (pyobj * string)).
Context (do_ssl_list_my_slices :
  string → string → M (option (list string) * string)).
Context (do_ssl_list_my_ssh_keys :
  string → M (option (list string) * string)).

(** X19: [deleteslice] without a name, or with a name made of white space
    only, logs and raises [OmniError] before the framework is asked
    anything: the outcome is the same for every framework. *)
Theorem deleteslice_requires_name (args : list string) (log : list effect) :
  args = [] ∨ (∃ name rest, args = name :: rest ∧ blank name = true) →
  deleteslice slice_name_to_urn do_ssl_delete_slice args log
  = (inr (OmniError "deleteslice requires arg of slice name"),
     log ++ [Logged (ERROR, "deleteslice requires arg of slice name")]).
Proof.
  intros Hargs. apply no_name_iff in Hargs.
  unfold deleteslice. by rewrite Hargs.
Qed.

(** X20: [deleteslice] on a proper name asks the framework for the URN of
    the name as given (it is not stripped) and then for the deletion of
    that URN.  It reports success exactly when the result is neither [None]
    nor [False]; the summary shows the [repr] of the result, followed by
    the message only when the result is [None] and the message is not
    empty, and it is the record logged last. *)
Theorem deleteslice_reports_result
    (name : string) (rest : list string) (urn message : string)
    (res : pyobj) (log log1 log2 : list effect) :
  blank name = false →
  slice_name_to_urn name log = (inl urn, log1) →
  do_ssl_delete_slice ("Delete Slice " +:+ urn) urn log1
  = (inl (res, message), log2) →
  ∃ prtStr,
    deleteslice slice_name_to_urn do_ssl_delete_slice (name :: rest) log
    = (inl (prtStr, bool_decide (res ≠ PyNone ∧ res ≠ PyFalse)),
       log2 ++ [Logged (INFO, prtStr)])
    ∧ prtStr
      = "Delete Slice " +:+ name +:+ " result: " +:+ repr_obj res
          +:+ (if bool_decide (res = PyNone ∧ message ≠ EmptyString)
               then ". " +:+ message else EmptyString).
Proof.
  intros Hname Hurn Hdelete.
  assert (Hcheck : no_name (name :: rest) = false).
  { destruct (no_name (name :: rest)) eqn:Hno; [|done].
    apply no_name_iff in Hno as [? | (? & ? & [= <- <-] & ?)]; congruence. }
  assert (Hnil : ∀ s, s +:+ EmptyString = s).
  { intros s. induction s as [|c s IH]; [done|]. by rewrite app_cons, IH. }
  unfold deleteslice. rewrite Hcheck.
  unfold mbind, M_bind, mret, M_ret. simpl.
  rewrite Hurn, Hdelete. unfold logger.
  destruct res; simpl.
  - case_bool_decide as Hmsg.
    + rewrite bool_decide_true by done. eexists. split; [reflexivity|].
      by rewrite !app_assoc_string.
    + rewrite bool_decide_false by (intros [_ Hne]; congruence).
      eexists. split; [reflexivity|]. by rewrite Hnil.
  - eexists. split; reflexivity.
  - eexists. split; reflexivity.
  - eexists. split; [reflexivity|]. by rewrite Hnil.
Qed.


(** X22: what [listmykeys] returns: the summary ends with the count of the
    list returned; the list is the framework's, or empty, with the summary
    starting with the server's message, when the framework gave [None]. *)
Theorem listmykeys_summary (args : list string) (log : list effect)
    (retStr : string) (keys : list string) (log' : list effect) :
  listmykeys do_ssl_list_my_ssh_keys args log = (inl (retStr, keys), log') →
  ∃ found message log1,
    do_ssl_list_my_ssh_keys "List Keys from Slice Authority" log
    = (inl (found, message), log1)
    ∧ keys = default [] found
    ∧ retStr
      = (match found with
         | Some _ => EmptyString
         | None => "Server error: " +:+ message +:+ ". "
         end)
          +:+ "Found " +:+ pretty (length keys) +:+ " key(s) for user."
          +:+ nl.
Proof.
  unfold listmykeys. unfold mbind, M_bind, mret, M_ret. simpl.
  destruct (do_ssl_list_my_ssh_keys _ log)
    as [[[found message]|e] log1] eqn:Hlist; [|done].
  destruct found as [found|]; simpl.
  - unfold logger. case_bool_decide; simpl; intros [= <- <- <-];
      by exists (Some found), message, log1.
  - unfold logger. simpl. intros [= <- <- <-].
    exists None, message, log1.
    by repeat split.
Qed.

End ch_command_facts.

Section ch_listaggregates_facts.

Import CH.

Context (_listaggregates : M (gmap string string * string)).

(** The record logged for the aggregate counted [n]. *)
Definition aggregate_record (n : nat) (urn url : string) : effect :=
  Logged (INFO,
   "  Aggregate " +:+ pretty n +:+ ":" +:+ nl +:+ " " +:+ tab
     +:+ urn +:+ " " +:+ nl +:+ " " +:+ tab +:+ url).

Fixpoint aggregate_records (n : nat) (aggList : list (string * string))
  : list effect :=
  match aggList with
  | [] => []
  | (urn, url) :: rest =>
      aggregate_record (n + 1) urn url :: aggregate_records (n + 1) rest
  end.

Definition insert_pair (retVal : gmap string string) (p : string * string)
  : gmap string string :=
  <[p.1 := p.2]> retVal.

(** The loop of [listaggregates] counts the items, stores each of them
    and logs one record for each. *)
Lemma for_aggregate_loop (aggList : list (string * string)) :
  ∀ (acc : M (nat * gmap string string)) (n : nat)
    (retVal : gmap string string) (log log0 : list effect),
    acc log0 = (inl (n, retVal), log) →
    foldl (λ (acc : M (nat * gmap string string)) '(urn, url),
             '(aggCnt, retVal) ← acc;
             let aggCnt := aggCnt + 1 in
             _ ← logger INFO
                   ("  Aggregate " +:+ pretty aggCnt +:+ ":" +:+ nl +:+ " "
                      +:+ tab +:+ urn +:+ " " +:+ nl +:+ " " +:+ tab +:+ url);
             mret (aggCnt, <[urn := url]> retVal))
          acc aggList log0
    = (inl (n + length aggList, foldl insert_pair retVal aggList),
       log ++ aggregate_records n aggList).
Proof.
  induction aggList as [|[urn url] rest IH]; intros acc n retVal log log0 Hacc.
  - simpl. by rewrite Nat.add_0_r, app_nil_r.
  - simpl.
    rewrite (IH _ (n + 1) (insert_pair retVal (urn, url))
               (log ++ [aggregate_record (n + 1) urn url]) log0).
    + rewrite <- app_assoc. simpl.
      by replace (n + 1 + length rest) with (n + S (length rest)) by lia.
    + unfold mbind, M_bind. rewrite Hacc. reflexivity.
Qed.

Lemma for_aggregate_spec (aggList : list (string * string))
    (log : list effect) :
  for_aggregate aggList log
  = (inl (length aggList, foldl insert_pair ∅ aggList),
     log ++ aggregate_records 0 aggList).
Proof.
  exact (for_aggregate_loop aggList (mret (0, ∅)) 0 ∅ log log eq_refl).
Qed.

Lemma foldl_insert_pair (aggList : list (string * string)) :
  foldl insert_pair ∅ aggList = list_to_map (reverse aggList).
Proof.
  induction aggList as [|p rest IH] using rev_ind; [done|].
  by rewrite foldl_snoc, reverse_snoc, IH.
Qed.

Lemma foldl_insert_items (aggs : gmap string string) :
  foldl insert_pair ∅ (map_to_list aggs) = aggs.
Proof.
  rewrite foldl_insert_pair.
  rewrite <- (list_to_map_to_list aggs) at 2.
  apply list_to_map_proper.
  - rewrite reverse_Permutation. apply NoDup_fst_map_to_list.
  - apply reverse_Permutation.
Qed.

Lemma aggregate_records_length (n : nat) (aggList : list (string * string)) :
  length (aggregate_records n aggList) = length aggList.
Proof.
  revert n. induction aggList as [|[urn url] rest IH]; intros n; simpl;
    [done | by rewrite IH].
Qed.

(** X23: [listaggregates] returns the dictionary of [_listaggregates]
    itself, item by item, whatever the order of iteration, and logs one
    record for the count and one for each aggregate.  The summary is the
    message of [_listaggregates] when nothing was found and a message was
    given, the URN and URL of the aggregate when there is exactly one, and
    the number of aggregates when there are more. *)
Theorem listaggregates_returns_all
    (args : list string) (aggs : gmap string string) (message : string)
    (log log1 : list effect) :
  _listaggregates log = (inl (aggs, message), log1) →
  ∃ retStr records,
    listaggregates _listaggregates args log
    = (inl (retStr, aggs),
       log1 ++ Logged (INFO, "Listing " +:+ pretty (size aggs) +:+ " aggregates...")
         :: records)
    ∧ length records = size aggs
    ∧ (aggs = ∅ → message ≠ EmptyString →
       retStr = "No aggregates found: " +:+ message)
    ∧ (aggs = ∅ → message = EmptyString → retStr = "No aggregates found.")
    ∧ (∀ urn url, aggs = {[ urn := url ]} →
       retStr = "Found 1 aggregate. URN: " +:+ urn +:+ "; URL: " +:+ url)
    ∧ (1 < size aggs →
       retStr = "Found " +:+ pretty (size aggs) +:+ " aggregates.").
Proof.
  intros Hfound. unfold listaggregates.
  unfold mbind at 1, M_bind at 1. rewrite Hfound.
  unfold mbind at 1, M_bind at 1. unfold logger at 1.
  unfold mbind at 1, M_bind at 1. rewrite for_aggregate_spec.
  rewrite foldl_insert_items, length_map_to_list, <- app_assoc.
  change ([Logged (INFO, "Listing " +:+ pretty (size aggs) +:+ " aggregates...")]
            ++ aggregate_records 0 (map_to_list aggs))
    with (Logged (INFO, "Listing " +:+ pretty (size aggs) +:+ " aggregates...")
            :: aggregate_records 0 (map_to_list aggs)).
  assert (Hrecords : length (aggregate_records 0 (map_to_list aggs))
                     = size aggs)
    by (by rewrite aggregate_records_length, length_map_to_list).
  assert (Hsingle : ∀ urn url, aggs = {[ urn := url ]} → size aggs = 1)
    by (intros urn url ->; apply map_size_singleton).
  unfold mbind, M_bind, mret, M_ret.
  destruct (decide (aggs = ∅)) as [Hempty | Hne].
  - assert (Hzero : size aggs = 0) by (by apply map_size_empty_iff).
    rewrite (bool_decide_true (aggs = ∅)) by done.
    destruct (decide (message = EmptyString)) as [Hmsg | Hmsg].
    + rewrite (bool_decide_false (message ≠ EmptyString))
        by (intros Hne; by apply Hne).
      rewrite (bool_decide_true (size aggs = 0)) by done. simpl.
      eexists _, _. split; [reflexivity|].
      repeat split; try done; try lia.
      intros urn url Heq. apply Hsingle in Heq. lia.
    + rewrite (bool_decide_true (message ≠ EmptyString)) by done. simpl.
      eexists _, _. split; [reflexivity|].
      repeat split; try done; try lia.
      intros urn url Heq. apply Hsingle in Heq. lia.
  - assert (Hsize : size aggs ≠ 0) by (by rewrite map_size_empty_iff).
    rewrite (bool_decide_false (aggs = ∅)) by done.
    rewrite (bool_decide_false (size aggs = 0)) by done. simpl.
    destruct (decide (size aggs = 1)) as [Hone | Hmany].
    + rewrite (bool_decide_true (size aggs = 1)) by done.
      destruct (map_to_list aggs) as [|[urn url] [|more]] eqn:Hitems;
        try (rewrite <- length_map_to_list, Hitems in Hone; done).
      eexists _, _. split; [reflexivity|].
      repeat split; try done; try lia.
      intros urn' url' Heq. rewrite Heq, map_to_list_singleton in Hitems.
      by injection Hitems as -> ->.
    + rewrite (bool_decide_false (size aggs = 1)) by done.
      eexists _, _. split; [reflexivity|].
      repeat split; try done.
      intros urn url Heq. apply Hsingle in Heq. lia.
Qed.

End ch_listaggregates_facts.

(** ** The call handler on a sample framework *)

Module CHSamples.

Import CH.

(** A framework that names slices under one authority, refuses to delete
    (with a message), lists no keys because the server is down, and knows
    two aggregates. *)
Definition slice_name_to_urn (name : string) : M string :=
  mret ("urn:publicid:IDN+example.org+slice+" +:+ name).

Definition do_ssl_delete_slice (reason urn : string) : M (pyobj * string) :=
  mret (PyNone, "no such slice").

Definition do_ssl_list_my_ssh_keys (reason : string)
  : M (option (list string) * string) :=
  mret (None, "connection refused").

Definition two_aggregates : gmap string string :=
  {[ "urn:publicid:IDN+example.org+authority+am" := "https://example.org/am";
     "urn:publicid:IDN+example.net+authority+am" := "https://example.net/am" ]}.

Definition _listaggregates : M (gmap string string * string) :=
  mret (two_aggregates, EmptyString).

Definition attributes : gmap string (list string → M string) :=
  {[ "_maybe_save_slicecred" := λ args, mret "saved" ]}.

End CHSamples.

Section ch_sample_facts.

Import CH CHSamples.

Lemma handle_skips_private_witness :
  _handle attributes ["_Maybe_Save_SliceCred"; "myslice"] []
  = (inl None, []).
Proof.
  apply (handle_skips_private attributes "_Maybe_Save_SliceCred"
           ["myslice"] []).
  reflexivity.
Defined.

Lemma deleteslice_requires_name_witness :
  deleteslice slice_name_to_urn do_ssl_delete_slice ["   "] []
  = (inr (OmniError "deleteslice requires arg of slice name"),
     [] ++ [Logged (ERROR, "deleteslice requires arg of slice name")]).
Proof.
  apply (deleteslice_requires_name slice_name_to_urn do_ssl_delete_slice
           ["   "] []).
  right. exists "   ", []. split; reflexivity.
Defined.

Lemma deleteslice_reports_result_witness :
  ∃ prtStr,
    deleteslice slice_name_to_urn do_ssl_delete_slice [" myslice"] []
    = (inl (prtStr, bool_decide (PyNone ≠ PyNone ∧ PyNone ≠ PyFalse)),
       [] ++ [Logged (INFO, prtStr)])
    ∧ prtStr
      = "Delete Slice " +:+ " myslice" +:+ " result: " +:+ repr_obj PyNone
          +:+ (if bool_decide (PyNone = PyNone
                               ∧ "no such slice" ≠ EmptyString)
               then ". " +:+ "no such slice" else EmptyString).
Proof.
  apply (deleteslice_reports_result slice_name_to_urn do_ssl_delete_slice
           " myslice" [] "urn:publicid:IDN+example.org+slice+ myslice"
           "no such slice" PyNone [] [] []); reflexivity.
Defined.

Lemma listmykeys_summary_witness :
  ∃ found message log1,
    do_ssl_list_my_ssh_keys "List Keys from Slice Authority" []
    = (inl (found, message), log1)
    ∧ [] = default [] found
    ∧ "Server error: connection refused. Found 0 key(s) for user." +:+ nl
      = (match found with
         | Some _ => EmptyString
         | None => "Server error: " +:+ message +:+ ". "
         end)
          +:+ "Found " +:+ pretty (length ([] : list string))
          +:+ " key(s) for user." +:+ nl.
Proof.
  apply (listmykeys_summary do_ssl_list_my_ssh_keys [] []
           ("Server error: connection refused. Found 0 key(s) for user."
              +:+ nl)
           [] [Logged (ERROR, "Failed to list keys for you")]).
  reflexivity.
Defined.

Lemma listaggregates_returns_all_witness :
  ∃ retStr records,
    listaggregates _listaggregates [] []
    = (inl (retStr, two_aggregates),
       [] ++ Logged (INFO, "Listing " +:+ pretty (size two_aggregates)
                      +:+ " aggregates...") :: records)
    ∧ length records = size two_aggregates
    ∧ (two_aggregates = ∅ → EmptyString ≠ EmptyString →
       retStr = "No aggregates found: " +:+ EmptyString)
    ∧ (two_aggregates = ∅ → EmptyString = EmptyString →
       retStr = "No aggregates found.")
    ∧ (∀ urn url, two_aggregates = {[ urn := url ]} →
       retStr = "Found 1 aggregate. URN: " +:+ urn +:+ "; URL: " +:+ url)
    ∧ (1 < size two_aggregates →
       retStr = "Found " +:+ pretty (size two_aggregates) +:+ " aggregates.").
Proof.
  apply (listaggregates_returns_all _listaggregates [] two_aggregates
           EmptyString [] []).
  reflexivity.
Defined.

End ch_sample_facts.

(** ** Saving and fetching credentials *)

Section ch_names.

Import CH.

Lemma strip_proper (name : string) :
  blank name = false → strip name ≠ EmptyString.
Proof. intros Hname Hstrip. apply strip_empty_iff in Hstrip. congruence. Qed.

Lemma no_name_proper (name : string) (rest : list string) :
  blank name = false → no_name (name :: rest) = false.
Proof.
  intros Hname. simpl. apply bool_decide_eq_false. by apply strip_proper.
Qed.

Lemma append_empty (s : string) : s +:+ EmptyString = s.
Proof. induction s as [|c s IH]; [done|]. by rewrite app_cons, IH. Qed.

End ch_names.

Section ch_save_facts.

Import CH.

Context (opts : options).

(** What [_maybe_save_slicecred] does on a proper name and a credential:
    one file written when [opts.output] is set, the credential printed
    when it is not but [opts.tostdout] is, nothing otherwise. *)
Lemma maybe_save_slicecred_cases (name slicecred : string)
    (log : list effect) :
  blank name = false →
  (output opts = true
   ∧ ∃ filename,
       _maybe_save_slicecred opts (Some name) (Some slicecred) log
       = (inl (Some filename), log ++ [Wrote filename (slicecred +:+ nl)])
       ∧ (∀ given, slicecredfile opts = Some given →
            given ≠ EmptyString → filename = given)
       ∧ (truthy (slicecredfile opts) = false →
          filename
          = match prefix opts with
            | Some p =>
                if blank p then EmptyString else strip p +:+ "-"
            | None => EmptyString
            end +:+ name +:+ "-cred.xml"))
  ∨ (output opts = false ∧ tostdout opts = true
     ∧ _maybe_save_slicecred opts (Some name) (Some slicecred) log
       = (inl None,
          log ++ [Logged (INFO, "Writing slice " +:+ name
                                  +:+ " cred to STDOUT per options");
                  Printed slicecred]))
  ∨ (output opts = false ∧ tostdout opts = false
     ∧ _maybe_save_slicecred opts (Some name) (Some slicecred) log
       = (inl None, log)).
Proof.
  intros Hname. unfold _maybe_save_slicecred.
  rewrite bool_decide_false by by apply strip_proper.
  destruct (output opts) eqn:Houtput.
  - left. split; [done|]. eexists. split; [reflexivity|]. split.
    + intros given Hgiven Hne. rewrite Hgiven. simpl.
      by rewrite bool_decide_true.
    + intros Hfile. rewrite Hfile.
      destruct (prefix opts) as [p|]; simpl; [|done].
      destruct (blank p) eqn:Hp.
      * apply strip_empty_iff in Hp. rewrite Hp.
        rewrite (bool_decide_false (EmptyString ≠ EmptyString)) by auto.
        by rewrite andb_false_r.
      * apply strip_proper in Hp.
        rewrite (bool_decide_true (strip p ≠ EmptyString)) by done.
        rewrite andb_true_r.
        assert (Htruthy : bool_decide (p ≠ EmptyString) = true).
        { apply bool_decide_eq_true. by intros ->. }
        rewrite Htruthy. by rewrite !app_assoc_string.
  - right. destruct (tostdout opts) eqn:Hstdout.
    + left. repeat split; try done.
      unfold mbind, M_bind, mret, M_ret, logger, print. simpl.
      by rewrite <- app_assoc.
    + right. by repeat split.
Qed.

(** X24: [_maybe_save_slicecred] never raises, and it returns a file name
    exactly when [opts.output] is set, the name is not blank and a
    credential is given, an empty one included.  A file is written only
    under the name returned, and it holds the credential followed by a
    newline; the credential is printed only when no file is written and
    [opts.tostdout] is set.  The file is [opts.slicecredfile] when that is
    given and not empty; otherwise it is the name as given (not stripped)
    followed by [-cred.xml], preceded by the stripped prefix and a dash
    when [opts.prefix] is given and not blank. *)
Theorem maybe_save_slicecred_saves_iff (name slicecred : option string)
    (log : list effect) :
  ∃ filename effects,
    _maybe_save_slicecred opts name slicecred log
    = (inl filename, log ++ effects)
    ∧ (is_Some filename
       ↔ output opts = true
         ∧ (∃ n, name = Some n ∧ blank n = false)
         ∧ is_Some slicecred)
    ∧ (∀ f content,
         Wrote f content ∈ effects
         ↔ filename = Some f
           ∧ ∃ cred, slicecred = Some cred ∧ content = cred +:+ nl)
    ∧ (∀ text,
         Printed text ∈ effects
         ↔ filename = None ∧ tostdout opts = true
           ∧ slicecred = Some text
           ∧ ∃ n, name = Some n ∧ blank n = false)
    ∧ (∀ f n,
         filename = Some f → name = Some n →
         (∀ given, slicecredfile opts = Some given →
            given ≠ EmptyString → f = given)
         ∧ (truthy (slicecredfile opts) = false →
            f = match prefix opts with
                | Some p => if blank p then EmptyString else strip p +:+ "-"
                | None => EmptyString
                end +:+ n +:+ "-cred.xml")).
Proof.
  assert (Hnothing :
    (∀ n, name = Some n → blank n = true) ∨ slicecred = None →
    ∃ filename effects,
      _maybe_save_slicecred opts name slicecred log
      = (inl filename, log ++ effects)
      ∧ filename = None ∧ effects = []).
  { intros Hcase. exists None, []. rewrite app_nil_r.
    split; [|done]. destruct Hcase as [Hblank | ->].
    - destruct name as [n|]; [|done]. destruct slicecred; [|done].
      unfold _maybe_save_slicecred.
      rewrite bool_decide_true; [done|].
      apply strip_empty_iff. by apply Hblank.
    - by destruct name. }
  assert (Hnone : ∀ filename effects,
    filename = None → effects = [] →
    ((∃ n, name = Some n ∧ blank n = false) → is_Some slicecred → False) →
    (is_Some filename
     ↔ output opts = true
       ∧ (∃ n, name = Some n ∧ blank n = false)
       ∧ is_Some slicecred)
    ∧ (∀ f content,
         Wrote f content ∈ effects
         ↔ filename = Some f
           ∧ ∃ cred, slicecred = Some cred ∧ content = cred +:+ nl)
    ∧ (∀ text,
         Printed text ∈ effects
         ↔ filename = None ∧ tostdout opts = true
           ∧ slicecred = Some text
           ∧ ∃ n, name = Some n ∧ blank n = false)
    ∧ (∀ f n,
         filename = Some f → name = Some n →
         (∀ given, slicecredfile opts = Some given →
            given ≠ EmptyString → f = given)
         ∧ (truthy (slicecredfile opts) = false →
            f = match prefix opts with
                | Some p => if blank p then EmptyString else strip p +:+ "-"
                | None => EmptyString
                end +:+ n +:+ "-cred.xml"))).
  { intros filename effects -> -> Hno. split; [|split; [|split]].
    - split; [by intros [? ?]|]. intros (_ & Hn & Hc). by destruct Hno.
    - intros f content. split; [by intros ?%elem_of_nil | by intros [? _]].
    - intros text. split; [by intros ?%elem_of_nil|].
      intros (_ & _ & Hc & Hn). destruct Hno; [done|by rewrite Hc].
    - by intros f n ?. }
  destruct name as [n|]; [destruct (blank n) eqn:Hn|];
    [| destruct slicecred as [cred|] |].
  - destruct Hnothing as (filename & effects & Hrun & Hf & He).
    { left. by intros ? [= <-]. }
    exists filename, effects. split; [done|]. apply Hnone; [done..|].
    intros (? & [= <-] & ?) _. congruence.
  - destruct (maybe_save_slicecred_cases n cred log Hn)
      as [(Hout & filename & -> & Hrule)
         | [(Hout & Hstd & ->) | (Hout & Hstd & ->)]].
    + exists (Some filename), [Wrote filename (cred +:+ nl)].
      split; [done|]. split; [|split; [|split]].
      * split; [|done]. intros _. split; [done|]. split; [by exists n|done].
      * intros f content. rewrite list_elem_of_singleton. split.
        -- intros [= -> ->]. split; [done|]. by exists cred.
        -- by intros ([= ->] & ? & [= <-] & ->).
      * intros text. rewrite list_elem_of_singleton. split; [done|].
        by intros [? _].
      * by intros f ? [= <-] [= <-].
    + eexists None, _. split; [done|]. split; [|split; [|split]].
      * split; [by intros [? ?]|]. intros (? & _). congruence.
      * intros f content. split; [|by intros [? _]].
        intros [?|[?|?%elem_of_nil]%elem_of_cons]%elem_of_cons; done.
      * intros text. split.
        -- intros [?|[[= ->]|?%elem_of_nil]%elem_of_cons]%elem_of_cons;
             try done.
           repeat split; try done. by exists n.
        -- intros (_ & _ & [= <-] & _). apply elem_of_cons. right.
           apply elem_of_cons. by left.
      * by intros f ? ?.
    + exists None, []. rewrite app_nil_r. split; [done|].
      split; [|split; [|split]].
      * split; [by intros [? ?]|]. intros (? & _). congruence.
      * intros f content. split; [by intros ?%elem_of_nil | by intros [? _]].
      * intros text. split; [by intros ?%elem_of_nil|].
        intros (_ & ? & _). congruence.
      * by intros f ? ?.
  - destruct Hnothing as (filename & effects & Hrun & Hf & He); [by right|].
    exists filename, effects. split; [done|]. apply Hnone; [done..|].
    by intros _ [? ?].
  - destruct Hnothing as (filename & effects & Hrun & Hf & He).
    { left. by intros ? [=]. }
    exists filename, effects. split; [done|]. apply Hnone; [done..|].
    by intros (? & [=] & _) _.
Qed.

End ch_save_facts.

Section ch_createslice_facts.

Import CH.

Context (slice_name_to_urn : string → M string) (opts : options).
Context (do_ssl_create_slice : string → string → M (option string * string)).
Context (get_cred_exp : string → M string).
Context (isEnabledFor : level → M bool).

(** X25: [createslice] never returns on failure.  When the framework
    gives no credential ([None] or an empty one), the failure is logged
    at level [ERROR], with the message when there is one, and then the
    test of the debug level raises [NameError]: the module uses
    [logging.DEBUG] without importing [logging].  No summary is returned
    and the hint to retry with [--debug] is never logged, whatever the
    level of the logger. *)
Theorem createslice_failure_raises_NameError
    (name : string) (rest : list string) (urn message : string)
    (slice_cred : option string) (log log1 log2 : list effect) :
  blank name = false →
  slice_name_to_urn name log = (inl urn, log1) →
  do_ssl_create_slice ("Create Slice " +:+ urn) urn log1
  = (inl (slice_cred, message), log2) →
  slice_cred = None ∨ slice_cred = Some EmptyString →
  createslice slice_name_to_urn opts do_ssl_create_slice get_cred_exp
    isEnabledFor (name :: rest) log
  = (inr (Raised (Exception "NameError")),
     log2 ++ [Logged (ERROR,
                "Create Slice Failed for slice name " +:+ name +:+ "."
                  +:+ (if bool_decide (message ≠ EmptyString)
                       then " " +:+ message else EmptyString))]).
Proof.
  intros Hname Hurn Hcreate Hcred.
  unfold createslice. rewrite (no_name_proper name rest Hname).
  unfold mbind, M_bind, mret, M_ret. simpl.
  rewrite Hurn, Hcreate.
  assert (Hfalse : truthy slice_cred = false).
  { by destruct Hcred as [-> | ->]. }
  rewrite Hfalse. unfold logger, raise. simpl.
  case_bool_decide.
  - by rewrite ?app_assoc_string.
  - by rewrite ?app_assoc_string, ?append_empty.
Qed.

(** X26: [createslice] on success returns the URN of the slice.  The
    summary starts with the line naming the slice, its URN and the
    expiration read from the credential; when [opts.output] is unset that
    is all of it and no file is written, and when it is set the
    credential followed by a newline is written to a file which the
    second line of the summary names. *)
Theorem createslice_success
    (name : string) (rest : list string) (urn message cred slice_exp : string)
    (log log1 log2 log3 : list effect) :
  blank name = false →
  slice_name_to_urn name log = (inl urn, log1) →
  do_ssl_create_slice ("Create Slice " +:+ urn) urn log1
  = (inl (Some cred, message), log2) →
  cred ≠ EmptyString →
  get_cred_exp cred log2 = (inl slice_exp, log3) →
  ∃ retVal effects,
    createslice slice_name_to_urn opts do_ssl_create_slice get_cred_exp
      isEnabledFor (name :: rest) log
    = (inl (retVal, Some urn), log3 ++ effects)
    ∧ (output opts = false →
       retVal = "Created slice with Name " +:+ name +:+ ", URN " +:+ urn
                  +:+ ", Expiration " +:+ slice_exp +:+ nl
       ∧ ∀ f content, Wrote f content ∉ effects)
    ∧ (output opts = true →
       ∃ filename,
         retVal = "Created slice with Name " +:+ name +:+ ", URN " +:+ urn
                    +:+ ", Expiration " +:+ slice_exp +:+ nl
                    +:+ "Wrote slice " +:+ name +:+ " credential to file '"
                    +:+ filename +:+ "'" +:+ nl
         ∧ Wrote filename (cred +:+ nl) ∈ effects).
Proof.
  intros Hname Hurn Hcreate Hcred Hexp.
  unfold createslice. rewrite (no_name_proper name rest Hname).
  remember (_maybe_save_slicecred opts) as save eqn:Hsaved.
  unfold mbind, M_bind, mret, M_ret. simpl.
  rewrite Hurn, Hcreate. simpl.
  rewrite (bool_decide_true (cred ≠ EmptyString)) by done.
  rewrite Hexp. unfold logger. simpl. subst save.
  destruct (maybe_save_slicecred_cases opts name cred
              (log3 ++ [Logged (INFO,
                 "Created slice with Name " +:+ name +:+ ", URN " +:+ urn
                   +:+ ", Expiration " +:+ slice_exp)]) Hname)
    as [(Hout & filename & Hsave & _)
       | [(Hout & Hstd & Hsave) | (Hout & Hstd & Hsave)]].
  - rewrite Hsave. simpl. eexists _, _. split.
    { rewrite <- !app_assoc. reflexivity. }
    split; [congruence|]. intros _. exists filename. split.
    + by rewrite ?app_assoc_string.
    + simpl. apply elem_of_cons. right. apply elem_of_cons. by left.
  - rewrite Hsave. simpl. eexists _, _. split.
    { rewrite <- !app_assoc. reflexivity. }
    split; [|congruence]. intros _. split.
    + by rewrite ?app_assoc_string.
    + simpl. intros f content Hin.
      repeat (apply elem_of_cons in Hin as [Hin|Hin]; [done|]).
      by apply elem_of_nil in Hin.
  - rewrite Hsave. simpl. eexists _, _. split; [reflexivity|].
    split; [|congruence]. intros _. split.
    + by rewrite ?app_assoc_string.
    + intros f content Hin.
      repeat (apply elem_of_cons in Hin as [Hin|Hin]; [done|]).
      by apply elem_of_nil in Hin.
Qed.

End ch_createslice_facts.

Section ch_slicecred_facts.

Import CH.

Context (slice_name_to_urn : string → M string) (opts : options).
Context (_get_slice_cred : string → M (option string * string)).
Context (_print_slice_expiration : string → option string → M string).

(** X27: [getslicecred] returns the credential as its second item
    whenever there is one, an empty one included.  The first item is the
    credential itself when [opts.output] is unset, and then no file is
    written; when it is set, the credential followed by a newline is
    written to a file and the first item is the sentence naming that
    file.  What [_print_slice_expiration] returns is dropped by
    [getslicecred], and it is both items of what
    [print_slice_expiration] returns. *)
Theorem getslicecred_returns_credential
    (name : string) (rest : list string)
    (urn message cred expiration : string)
    (log log1 log2 log3 : list effect) :
  blank name = false →
  slice_name_to_urn name log = (inl urn, log1) →
  _get_slice_cred urn log1 = (inl (Some cred, message), log2) →
  _print_slice_expiration urn (Some cred) log2 = (inl expiration, log3) →
  ∃ retVal effects,
    getslicecred slice_name_to_urn opts _get_slice_cred
      _print_slice_expiration (name :: rest) log
    = (inl (retVal, Some cred),
       log3 ++ Logged (INFO, "Retrieved slice cred for slice " +:+ urn)
         :: effects)
    ∧ (output opts = false →
       retVal = cred ∧ ∀ f content, Wrote f content ∉ effects)
    ∧ (output opts = true →
       ∃ filename,
         retVal = "Saved slice " +:+ name +:+ " cred to file " +:+ filename
         ∧ Wrote filename (cred +:+ nl) ∈ effects)
    ∧ print_slice_expiration slice_name_to_urn _get_slice_cred
        _print_slice_expiration (name :: rest) log
      = (inl (expiration, Some expiration), log3).
Proof.
  intros Hname Hurn Hcred Hexp.
  assert (Hprint :
    print_slice_expiration slice_name_to_urn _get_slice_cred
      _print_slice_expiration (name :: rest) log
    = (inl (expiration, Some expiration), log3)).
  { unfold print_slice_expiration.
    rewrite (no_name_proper name rest Hname).
    unfold mbind, M_bind, mret, M_ret. simpl.
    by rewrite Hurn, Hcred, Hexp. }
  unfold getslicecred. rewrite (no_name_proper name rest Hname).
  remember (_maybe_save_slicecred opts) as save eqn:Hsaved.
  unfold mbind, M_bind, mret, M_ret. simpl.
  rewrite Hurn, Hcred. simpl. rewrite Hexp. unfold logger. simpl.
  subst save.
  destruct (maybe_save_slicecred_cases opts name cred
              (log3 ++ [Logged (INFO,
                 "Retrieved slice cred for slice " +:+ urn)]) Hname)
    as [(Hout & filename & Hsave & _)
       | [(Hout & Hstd & Hsave) | (Hout & Hstd & Hsave)]].
  - rewrite Hsave. simpl. eexists _, _. split.
    { rewrite <- !app_assoc. reflexivity. }
    split; [congruence|]. split; [|done]. intros _. exists filename. split.
    + by rewrite ?app_assoc_string.
    + apply elem_of_cons. by left.
  - rewrite Hsave. simpl. eexists _, _. split.
    { rewrite <- !app_assoc. reflexivity. }
    split; [|split; [congruence|done]]. intros _. split; [done|].
    intros f content Hin.
    repeat (apply elem_of_cons in Hin as [Hin|Hin]; [done|]).
    by apply elem_of_nil in Hin.
  - rewrite Hsave. simpl. exists cred, []. split; [done|].
    split; [|split; [congruence|done]]. intros _. split; [done|].
    intros f content Hin. by apply elem_of_nil in Hin.
Qed.

(** X28: without a credential neither [getslicecred] nor
    [print_slice_expiration] raises: both return the same sentence, made
    of the URN (not the name) and the message, together with [None], and
    neither logs anything of its own nor calls
    [_print_slice_expiration]. *)
Theorem slice_commands_without_credential
    (name : string) (rest : list string) (urn message : string)
    (log log1 log2 : list effect) :
  blank name = false →
  slice_name_to_urn name log = (inl urn, log1) →
  _get_slice_cred urn log1 = (inl (None, message), log2) →
  getslicecred slice_name_to_urn opts _get_slice_cred
    _print_slice_expiration (name :: rest) log
  = (inl ("No slice credential returned for slice " +:+ urn +:+ ": "
            +:+ message, None), log2)
  ∧ print_slice_expiration slice_name_to_urn _get_slice_cred
      _print_slice_expiration (name :: rest) log
    = (inl ("No slice credential returned for slice " +:+ urn +:+ ": "
              +:+ message, None), log2).
Proof.
  intros Hname Hurn Hcred. split.
  - unfold getslicecred. rewrite (no_name_proper name rest Hname).
    unfold mbind, M_bind, mret, M_ret. simpl.
    by rewrite Hurn, Hcred.
  - unfold print_slice_expiration.
    rewrite (no_name_proper name rest Hname).
    unfold mbind, M_bind, mret, M_ret. simpl.
    by rewrite Hurn, Hcred.
Qed.

End ch_slicecred_facts.

Section ch_renewslice_facts.

Import CH.

Context (slice_name_to_urn : string → M string).
Context (do_ssl_renew_slice :
  string → string → string → M (option string * string)).
Context (_print_slice_expiration : string → option string → M string).
Context (dateutil_parse : string → M string).

(** X29: [renewslice] checks before it renews.  With other than two
    arguments it logs and raises [OmniError] without asking the framework
    anything.  With two, the URN is asked for first, so that a failure of
    [slice_name_to_urn] comes before any complaint about the date; a date
    on which the parser raises anything at all, an instance of
    [Exception] or not, is logged and raised as [OmniError], and the
    renewal is not asked for. *)
Theorem renewslice_rejects (args : list string) (log : list effect) :
  (length args ≠ 2 →
   renewslice slice_name_to_urn do_ssl_renew_slice _print_slice_expiration
     dateutil_parse args log
   = (inr (OmniError
             "renewslice missing args: Supply <slice name> <expiration date>"),
      log ++ [Logged (ERROR,
                "renewslice missing args: Supply <slice name> <expiration date>")]))
  ∧ (∀ name expire_str e log1,
       blank name = false →
       slice_name_to_urn name log = (inr e, log1) →
       renewslice slice_name_to_urn do_ssl_renew_slice
         _print_slice_expiration dateutil_parse [name; expire_str] log
       = (inr e, log1))
  ∧ (∀ name expire_str urn e log1 log2,
       blank name = false →
       slice_name_to_urn name log = (inl urn, log1) →
       dateutil_parse expire_str log1 = (inr e, log2) →
       ∃ msg,
         renewslice slice_name_to_urn do_ssl_renew_slice
           _print_slice_expiration dateutil_parse [name; expire_str] log
         = (inr (OmniError msg), log2 ++ [Logged (ERROR, msg)])
         ∧ msg = "Unable to parse date " +:+ String dquote expire_str
                   +:+ String dquote "." +:+ nl +:+ "Try "
                   +:+ String dquote "YYYYMMDDTHH:MM:SSZ"
                   +:+ String dquote " format").
Proof.
  split; [|split].
  - intros Hlen. unfold renewslice.
    by rewrite (bool_decide_true (length args ≠ 2)) by done.
  - intros name expire_str e log1 Hname Hurn. unfold renewslice.
    rewrite (no_name_proper name [expire_str] Hname).
    unfold mbind, M_bind, mret, M_ret. simpl.
    by rewrite Hurn.
  - intros name expire_str urn e log1 log2 Hname Hurn Hparse.
    unfold renewslice.
    rewrite (no_name_proper name [expire_str] Hname).
    unfold mbind, M_bind, mret, M_ret, try_except. simpl.
    rewrite Hurn, Hparse. eexists. split; [reflexivity|].
    by rewrite ?app_assoc_string.
Qed.

End ch_renewslice_facts.

Section ch_getusercred_facts.

Import CH.

Context (opts : options) (get_user_cred : M (option string * string)).

(** X30: [getusercred] ignores its arguments and [opts.output].  Whenever
    it returns, the credential returned is the framework's and it has
    been written as it is, without a newline added, to the file
    [<opts.framework>-usercred.xml] that the summary names; when the
    framework gives [None], [OmniError] is logged and raised with the
    framework's message and nothing is written. *)
Theorem getusercred_saves (args : list string) (log : list effect) :
  (∀ summary cred log',
     getusercred opts get_user_cred args log = (inl (summary, cred), log') →
     ∃ message log1,
       get_user_cred log = (inl (Some cred, message), log1)
       ∧ summary
         = "Saved user credential to " +:+ framework opts +:+ "-usercred.xml"
       ∧ log'
         = log1
           ++ [Logged (INFO, "Writing your user credential to "
                               +:+ framework opts +:+ "-usercred.xml");
               Wrote (framework opts +:+ "-usercred.xml") cred;
               Logged (INFO, "User credential:" +:+ nl +:+ repr (Str cred))])
  ∧ (∀ message log1,
       get_user_cred log = (inl (None, message), log1) →
       getusercred opts get_user_cred args log
       = (inr (OmniError
                 ("Got no user credential from framework: " +:+ message)),
          log1 ++ [Logged (ERROR, "Got no user credential from framework: "
                                    +:+ message)])).
Proof.
  split.
  - intros summary cred log'. unfold getusercred.
    unfold mbind, M_bind, mret, M_ret. simpl.
    destruct (get_user_cred log) as [[[[found|] message]|e] log1] eqn:Hcred;
      simpl; try done.
    unfold logger, write_file. simpl. intros [= <- <- <-].
    exists message, log1. repeat split. by rewrite <- !app_assoc.
  - intros message log1 Hcred. unfold getusercred.
    unfold mbind, M_bind, mret, M_ret. simpl.
    by rewrite Hcred.
Qed.

End ch_getusercred_facts.

(** ** The credential commands on a sample framework *)

Module CredSamples.

Import CH.

(** Options that save under a prefix; a slice authority that grants a
    slice, one that refuses, and one that has lost the credential. *)
Definition saving : options :=
  {| output := true;
     slicecredfile := None;
     prefix := Some " omni ";
     tostdout := false;
     framework := "pgeni" |}.

Definition credential : string := "<signed-credential/>".

Definition slice_urn : string := "urn:publicid:IDN+example.org+slice+myslice".

Definition create_granted (reason urn : string) : M (option string * string) :=
  mret (Some credential, EmptyString).

Definition create_refused (reason urn : string) : M (option string * string) :=
  mret (None, "permission denied").

Definition get_cred_exp (cred : string) : M string :=
  mret "2012-06-01 12:00:00".

Definition isEnabledFor (lvl : level) : M bool := mret true.

Definition _get_slice_cred (urn : string) : M (option string * string) :=
  mret (Some credential, EmptyString).

Definition no_slice_cred (urn : string) : M (option string * string) :=
  mret (None, "no such slice").

Definition _print_slice_expiration (urn : string) (cred : option string)
  : M string :=
  mret ("Slice " +:+ urn +:+ " expires on 2012-06-01 12:00:00 UTC").

End CredSamples.

Section ch_credential_sample_facts.

Import CH CredSamples.

Lemma createslice_failure_raises_NameError_witness :
  createslice CHSamples.slice_name_to_urn saving create_refused get_cred_exp
    isEnabledFor ["myslice"] []
  = (inr (Raised (Exception "NameError")),
     [] ++ [Logged (ERROR,
              "Create Slice Failed for slice name " +:+ "myslice" +:+ "."
                +:+ (if bool_decide ("permission denied" ≠ EmptyString)
                     then " " +:+ "permission denied" else EmptyString))]).
Proof.
  apply (createslice_failure_raises_NameError CHSamples.slice_name_to_urn
           saving create_refused get_cred_exp isEnabledFor
           "myslice" [] slice_urn "permission denied" None [] [] []);
    try reflexivity.
  left. reflexivity.
Defined.

Lemma createslice_success_witness :
  ∃ retVal effects,
    createslice CHSamples.slice_name_to_urn saving create_granted
      get_cred_exp isEnabledFor ["myslice"] []
    = (inl (retVal, Some slice_urn), [] ++ effects)
    ∧ (output saving = false →
       retVal = "Created slice with Name " +:+ "myslice" +:+ ", URN "
                  +:+ slice_urn +:+ ", Expiration " +:+ "2012-06-01 12:00:00"
                  +:+ nl
       ∧ ∀ f content, Wrote f content ∉ effects)
    ∧ (output saving = true →
       ∃ filename,
         retVal = "Created slice with Name " +:+ "myslice" +:+ ", URN "
                    +:+ slice_urn +:+ ", Expiration "
                    +:+ "2012-06-01 12:00:00" +:+ nl
                    +:+ "Wrote slice " +:+ "myslice"
                    +:+ " credential to file '" +:+ filename +:+ "'" +:+ nl
         ∧ Wrote filename (credential +:+ nl) ∈ effects).
Proof.
  apply (createslice_success CHSamples.slice_name_to_urn saving
           create_granted get_cred_exp isEnabledFor
           "myslice" [] slice_urn EmptyString credential
           "2012-06-01 12:00:00" [] [] [] []);
    try reflexivity.
  discriminate.
Defined.

Lemma getslicecred_returns_credential_witness :
  ∃ retVal effects,
    getslicecred CHSamples.slice_name_to_urn saving _get_slice_cred
      _print_slice_expiration ["myslice"] []
    = (inl (retVal, Some credential),
       [] ++ Logged (INFO, "Retrieved slice cred for slice " +:+ slice_urn)
         :: effects)
    ∧ (output saving = false →
       retVal = credential ∧ ∀ f content, Wrote f content ∉ effects)
    ∧ (output saving = true →
       ∃ filename,
         retVal = "Saved slice " +:+ "myslice" +:+ " cred to file "
                    +:+ filename
         ∧ Wrote filename (credential +:+ nl) ∈ effects)
    ∧ print_slice_expiration CHSamples.slice_name_to_urn _get_slice_cred
        _print_slice_expiration ["myslice"] []
      = (inl ("Slice " +:+ slice_urn
                +:+ " expires on 2012-06-01 12:00:00 UTC",
              Some ("Slice " +:+ slice_urn
                      +:+ " expires on 2012-06-01 12:00:00 UTC")), []).
Proof.
  apply (getslicecred_returns_credential CHSamples.slice_name_to_urn saving
           _get_slice_cred _print_slice_expiration
           "myslice" [] slice_urn EmptyString credential
           ("Slice " +:+ slice_urn +:+ " expires on 2012-06-01 12:00:00 UTC")
           [] [] [] []);
    reflexivity.
Defined.

Lemma slice_commands_without_credential_witness :
  getslicecred CHSamples.slice_name_to_urn saving no_slice_cred
    _print_slice_expiration ["myslice"] []
  = (inl ("No slice credential returned for slice " +:+ slice_urn +:+ ": "
            +:+ "no such slice", None), [])
  ∧ print_slice_expiration CHSamples.slice_name_to_urn no_slice_cred
      _print_slice_expiration ["myslice"] []
    = (inl ("No slice credential returned for slice " +:+ slice_urn +:+ ": "
              +:+ "no such slice", None), []).
Proof.
  apply (slice_commands_without_credential CHSamples.slice_name_to_urn
           saving no_slice_cred _print_slice_expiration
           "myslice" [] slice_urn "no such slice" [] [] []);
    reflexivity.
Defined.

End ch_credential_sample_facts.
